(** * The Twilio actions of [src/controller/custom_controller.py]

    A shallow embedding of the three actions that [CustomController]
    registers around the messaging provider: [done], [send_twilio_message]
    and [verify_twilio_message], followed by the properties of them that the
    specification states.

    Conventions of the embedding.
    - Python [str] is [string]: a sequence of characters, each read as the
      code point of the same number (0 to 255).  [str.strip] and [str.lower]
      are given for exactly that range.
    - curl is installed and its argument vector fits the limits of the
      system, so the launch fails only where Python itself refuses it: on an
      argument that holds a NUL.  The two pipes of the subprocess carry
      text, so [bytes.decode()] is the identity on it.
    - [os.environ] is a finite map from names to values; the values are C
      strings, so none holds a NUL.
    - An action is a computation over a host (the environment and the
      subprocess launcher) that either returns or raises, and that records
      the argument vector of every subprocess it launches.
    - [json.loads] is a parameter of the verifier: it returns a value,
      raises the decoding error or raises another exception.
      [JsonText.loads] further down is a decoder used to run the verifier on
      concrete response text.
    - Calls to [logger] and [print] leave no mark on the result and are not
      represented. *)

From stdpp Require Import base option list strings gmap.

Local Open Scope Z_scope.

(** ** Python values and the primitives the actions use *)

Module Py.

(** Truth value of an [Optional[str]]: [None] and [''] are false. *)
Definition truthy (o : option string) : bool :=
  match o with
  | None => false
  | Some "" => false
  | Some _ => true
  end.

(** The builtin [all] over a list of [Optional[str]]. *)
Definition all (l : list (option string)) : bool := forallb truthy l.

(** How an f-string renders an [Optional[str]]. *)
Definition fmt (o : option string) : string :=
  match o with
  | None => "None"
  | Some s => s
  end.

(** [str.isspace] of one character below U+0100: TAB to CR, FS to US,
    SPACE, NEL and NBSP. *)
Definition isspace (c : Ascii.ascii) : bool :=
  let n := Z.of_nat (Ascii.nat_of_ascii c) in
  ((9 <=? n) && (n <=? 13)) || ((28 <=? n) && (n <=? 32))
  || (n =? 133) || (n =? 160).

Fixpoint lstrip (s : string) : string :=
  match s with
  | "" => ""
  | String c r => if isspace c then lstrip r else s
  end.

Fixpoint rstrip (s : string) : string :=
  match s with
  | "" => ""
  | String c r =>
      match rstrip r with
      | "" => if isspace c then "" else String c ""
      | r' => String c r'
      end
  end.

(** [s.strip()] with no argument. *)
Definition strip (s : string) : string := rstrip (lstrip s).

(** Lower case of one character below U+0100: A to Z, and the Latin-1
    capitals U+00C0 to U+00DE without the multiplication sign U+00D7. *)
Definition lower_char (c : Ascii.ascii) : Ascii.ascii :=
  let n := Z.of_nat (Ascii.nat_of_ascii c) in
  if ((65 <=? n) && (n <=? 90))
     || ((192 <=? n) && (n <=? 222) && negb (n =? 215))
  then Ascii.ascii_of_nat (Z.to_nat (n + 32))
  else c.

(** [s.lower()]. *)
Fixpoint lower (s : string) : string :=
  match s with
  | "" => ""
  | String c r => String (lower_char c) (lower r)
  end.

(** [bytes.decode()] on a pipe that carries text. *)
Definition decode (b : string) : string := b.

(** The values [json.loads] can build. A float keeps its literal. *)
#[warnings="-register-all"] Inductive value : Type :=
  | PNone
  | PBool (b : bool)
  | PInt (n : Z)
  | PFloat (literal : string)
  | PStr (s : string)
  | PList (l : list value)
  | PDict (d : gmap string value).

(** The exceptions that escape the actions. *)
Inductive exn : Type :=
  | AttributeError
  | TypeError
  | KeyError
  | IndexError
  | ValueError
  | RecursionError
  | UnicodeDecodeError.

Inductive result (A : Type) : Type :=
  | Return (a : A)
  | Raise (e : exn).
Arguments Return {A} a.
Arguments Raise {A} e.

(** [len(v)]. *)
Definition len (v : value) : result Z :=
  match v with
  | PStr s => Return (Z.of_nat (String.length s))
  | PList l => Return (Z.of_nat (length l))
  | PDict d => Return (Z.of_nat (size d))
  | _ => Raise TypeError
  end.

(** [v[i]] for a non-negative integer [i]. The keys of a decoded object are
    strings, so an integer subscript of a dict finds nothing. *)
Definition getitem (v : value) (i : nat) : result value :=
  match v with
  | PList l =>
      match l !! i with
      | Some x => Return x
      | None => Raise IndexError
      end
  | PStr s =>
      match String.get i s with
      | Some c => Return (PStr (String c ""))
      | None => Raise IndexError
      end
  | PDict _ => Raise KeyError
  | _ => Raise TypeError
  end.

(** [v.get(key, dflt)]: only a dict has the method. *)
Definition get (v : value) (key : string) (dflt : value) : result value :=
  match v with
  | PDict d => Return (default dflt (d !! key))
  | _ => Raise AttributeError
  end.

(** [v.strip()]: only a str has the method (among decoded values). *)
Definition strip_of (v : value) : result string :=
  match v with
  | PStr s => Return (strip s)
  | _ => Raise AttributeError
  end.

(** [o.lower()] for an [Optional[str]]: [None] has no such method. *)
Definition lower_of (o : option string) : result string :=
  match o with
  | Some s => Return (lower s)
  | None => Raise AttributeError
  end.

(** What [json.loads] does with a text: it returns a value, raises
    [JSONDecodeError], or raises something else (RecursionError on nesting
    that is too deep, ValueError on an integer with too many digits). *)
Inductive loads_result : Type :=
  | Loaded (v : value)
  | JSONDecodeError
  | Raises (e : exn).

(** A text with a NUL character in it. *)
Fixpoint has_nul (s : string) : bool :=
  match s with
  | "" => false
  | String c r => (Z.of_nat (Ascii.nat_of_ascii c) =? 0) || has_nul r
  end.

(** A text read as a C string: it ends before its first NUL. *)
Fixpoint c_string (s : string) : string :=
  match s with
  | "" => ""
  | String c r =>
      if Z.of_nat (Ascii.nat_of_ascii c) =? 0 then "" else String c (c_string r)
  end.

End Py.

(** ** The host and the action monad *)

(** What [create_subprocess_exec] followed by [communicate()] yields: the
    exit status and the text each pipe carried. *)
Record Process : Type := mkProcess {
  returncode : Z;
  stdout : string;
  stderr : string
}.

(** [environment] is the environment block of the process; [exec] answers
    for the subprocess launched with a given argument vector (curl and,
    behind it, the provider). *)
Record Host : Type := mkHost {
  environment : gmap string string;
  exec : list string → Process
}.

(** [os.environ]. The block holds NUL-terminated strings, so a value read
    from it ends before its first NUL. *)
Definition environ (h : Host) : gmap string string :=
  Py.c_string <$> environment h.

(** An action body: given the host, it returns or raises, and lists the
    argument vectors of the subprocesses it launched, oldest first. *)
Definition Task (A : Type) : Type := Host → Py.result A * list (list string).

#[global] Instance Task_ret : MRet Task :=
  λ A a _, (Py.Return a, []).

#[global] Instance Task_bind : MBind Task :=
  λ A B k m h,
    match m h with
    | (Py.Return a, t) => let '(r, t') := k a h in (r, t ++ t')
    | (Py.Raise e, t) => (Py.Raise e, t)
    end.

(** A pure Python operation inside an action. *)
Definition lift {A} (r : Py.result A) : Task A := λ _, (r, []).

(** [os.getenv(name)]. *)
Definition getenv (name : string) : Task (option string) :=
  λ h, (Py.Return (environ h !! name), []).

(** [await asyncio.create_subprocess_exec] on the argument vector [argv],
    both output streams piped.  An argument that holds a NUL is refused
    with ValueError ("embedded null byte") before anything is launched. *)
Definition create_subprocess_exec (argv : list string) : Task Process :=
  λ h, if existsb Py.has_nul argv
       then (Py.Raise Py.ValueError, [])
       else (Py.Return (exec h argv), [argv]).

(** [await process.communicate()]. *)
Definition communicate (p : Process) : Task (string * string) :=
  mret (stdout p, stderr p).

(** The value an action returned, if it returned. *)
Definition outcome {A} (x : Py.result A * list (list string)) : Py.result A :=
  fst x.

(** The subprocesses an action launched. *)
Definition launched {A} (x : Py.result A * list (list string))
  : list (list string) := snd x.

(** ** The parameter and result models *)

Record SendTwilioMessageAction : Type := { message : string }.

Record VerifyTwilioMessageAction : Type := {
  expected_message : option string
}.

(** The one field of the host framework's [DoneAction] that [done] reads. *)
Record DoneAction : Type := { text : string }.

(** Modelled from the spec: the class [ActionResult] of the host framework,
    which is imported and not defined in this repository.  The spec gives the
    uniform result object the fields extracted content (optional string),
    error (optional string) and the is-done flag; a field the constructor
    call does not name is unset. *)
Record ActionResult : Type := mkActionResult {
  is_done : bool;
  extracted_content : option string;
  error : option string
}.

(** [ActionResult(extracted_content=s)]. *)
Definition result_content (s : string) : ActionResult :=
  {| is_done := false; extracted_content := Some s; error := None |}.

(** [ActionResult(error=s)]. *)
Definition result_error (s : string) : ActionResult :=
  {| is_done := false; extracted_content := None; error := Some s |}.

(** [ActionResult(is_done=True, extracted_content=s)]. *)
Definition result_done (s : string) : ActionResult :=
  {| is_done := true; extracted_content := Some s; error := None |}.

(** ** The actions *)

Definition missing_credentials : string :=
  "Missing Twilio credentials in environment variables".

(** The argument vector of the POST that creates a message. *)
Definition send_command (account_sid auth_token to_number from_number
                         : option string) (message_body : string)
  : list string :=
  [ "curl";
    "-X"; "POST";
    "https://api.twilio.com/2010-04-01/Accounts/" +:+ Py.fmt account_sid
      +:+ "/Messages.json";
    "--data-urlencode"; "To=" +:+ Py.fmt to_number;
    "--data-urlencode"; "From=" +:+ Py.fmt from_number;
    "--data-urlencode"; "Body=" +:+ message_body;
    "-u"; Py.fmt account_sid +:+ ":" +:+ Py.fmt auth_token ].

(** Sends a Twilio message with a customizable message body. *)
Definition send_twilio_message (params : SendTwilioMessageAction)
  : Task ActionResult :=
  account_sid ← getenv "TWILIO_ACCOUNT_SID";
  auth_token ← getenv "TWILIO_AUTH_TOKEN";
  to_number ← getenv "TWILIO_WHATSAPP_TO";
  from_number ← getenv "TWILIO_WHATSAPP_FROM";
  if negb (Py.all [account_sid; auth_token; to_number; from_number]) then
    mret (result_error missing_credentials)
  else
    let message_body := message params in
    let curl_command :=
      send_command account_sid auth_token to_number from_number message_body in
    process ← create_subprocess_exec curl_command;
    '(stdout, stderr) ← communicate process;
    if returncode process =? 0 then
      mret (result_content "Message sent successfully")
    else
      mret (result_error
              ("Failed to send WhatsApp message: " +:+ Py.decode stderr)).

(** Overwrites the default "Done" action. *)
Definition done (params : DoneAction) : Task ActionResult :=
  let done_message := {| message := text params |} in
  send_result ← send_twilio_message done_message;
  mret (result_done ("Task completed: " +:+ text params)).

(** The argument vector of the GET that lists the two newest inbound
    messages. *)
Definition verify_command (account_sid auth_token : option string)
  : list string :=
  [ "curl";
    "-s";
    "-X"; "GET";
    "https://api.twilio.com/2010-04-01/Accounts/" +:+ Py.fmt account_sid
      +:+ "/Messages.json?PageSize=2&Direction=inbound";
    "-u"; Py.fmt account_sid +:+ ":" +:+ Py.fmt auth_token ].

Section Verifier.

(** [json.loads], from the Python library. *)
Variable json_loads : string → Py.loads_result.

(** Receives the second-to-last incoming Twilio message and verifies it. *)
Definition verify_twilio_message (params : VerifyTwilioMessageAction)
  : Task ActionResult :=
  account_sid ← getenv "TWILIO_ACCOUNT_SID";
  auth_token ← getenv "TWILIO_AUTH_TOKEN";
  if negb (Py.all [account_sid; auth_token]) then
    mret (result_error missing_credentials)
  else
    let curl_command := verify_command account_sid auth_token in
    process ← create_subprocess_exec curl_command;
    '(stdout, stderr) ← communicate process;
    if returncode process =? 0 then
      match json_loads stdout with
      | Py.Loaded response_data =>
          messages ← lift (Py.get response_data "messages" (Py.PList []));
          n ← lift (Py.len messages);
          if 2 <=? n then
            second_last_message ← lift (Py.getitem messages 1);
            body ← lift (Py.get second_last_message "body" (Py.PStr ""));
            stripped ← lift (Py.strip_of body);
            let received_message := Py.lower stripped in
            from_number ← lift (Py.get second_last_message "from" (Py.PStr ""));
            if Py.truthy (expected_message params) then
              expected ← lift (Py.lower_of (expected_message params));
              if String.eqb received_message expected
              then mret (result_content "Message verified successfully.")
              else mret (result_error
                     "Received message does not match the expected message.")
            else
              if String.eqb received_message "yes"
              then mret (result_content
                     "Task completed successfully. User replied 'Yes'.")
              else mret (result_error
                     ("User did not reply 'Yes'. Received: "
                        +:+ received_message))
          else
            mret (result_error
              "Not enough messages found to retrieve the second-to-last one.")
      | Py.JSONDecodeError =>
          mret (result_error
                  ("Error decoding Twilio message response: "
                     +:+ Py.decode stdout))
      | Py.Raises e => lift (Py.Raise e)
      end
    else
      mret (result_error
              ("Error receiving Twilio message. Error: " +:+ Py.decode stderr)).

End Verifier.

(** ** A decoder for JSON text

    [JsonText.loads] follows the scanner of Python's [json] module on the
    strings of the embedding: the whitespace, the constants (with [NaN] and
    the infinities), the number pattern, strict string scanning, arrays and
    objects (a repeated key keeps its last value), RecursionError when
    arrays and objects are nested beyond the recursion limit and ValueError
    when an integer has more digits than the interpreter converts.  A [\u]
    escape is decoded when its code point is below U+0100; above that the
    string has no counterpart in the embedding and the decoder is not to be
    used.  It instantiates the [json_loads] parameter wherever a property is
    run on a concrete response text. *)

Module JsonText.

Definition code (c : Ascii.ascii) : Z := Z.of_nat (Ascii.nat_of_ascii c).

Definition chr (n : Z) : Ascii.ascii := Ascii.ascii_of_nat (Z.to_nat n).

(** The quotation mark, and a helper to write response texts with
    apostrophes in its place. *)
Definition quote : Ascii.ascii := chr 34.

Fixpoint dq (s : string) : string :=
  match s with
  | "" => ""
  | String c r => String (if code c =? 39 then quote else c) (dq r)
  end.

(** The depth of nesting at which the scanner gives up, and the number of
    digits beyond which the conversion of an integer is refused.  The first
    is the recursion limit of the interpreter, 1000 by default; the exact
    depth varies with the interpreter and with the frames already in use,
    and the properties below run the decoder only on texts nested a few
    levels deep or far beyond any such limit. *)
Definition recursion_limit : nat := 1000.

Definition int_max_str_digits : nat := 4300.

(** What scanning a prefix of a text gives: a value and the text left, a
    malformed text, or an exception other than the decoding error. *)
Inductive scan (A : Type) : Type :=
  | Scanned (a : A) (rest : string)
  | Malformed
  | Exc (e : Py.exn).
Arguments Scanned {A} a rest.
Arguments Malformed {A}.
Arguments Exc {A} e.

Definition scan_bind {A B} (m : scan A) (k : A → string → scan B) : scan B :=
  match m with
  | Scanned a rest => k a rest
  | Malformed => Malformed
  | Exc e => Exc e
  end.

Definition scan_option {A} (o : option (A * string)) : scan A :=
  match o with
  | Some (a, rest) => Scanned a rest
  | None => Malformed
  end.

Definition is_ws (c : Ascii.ascii) : bool :=
  let n := code c in (n =? 32) || (n =? 9) || (n =? 10) || (n =? 13).

Fixpoint skip_ws (s : string) : string :=
  match s with
  | "" => ""
  | String c r => if is_ws c then skip_ws r else s
  end.

Definition is_digit (c : Ascii.ascii) : bool :=
  let n := code c in (48 <=? n) && (n <=? 57).

(** The longest run of digits at the front, and what follows it. *)
Fixpoint span_digits (s : string) : string * string :=
  match s with
  | "" => ("", "")
  | String c r =>
      if is_digit c then let '(d, rest) := span_digits r in (String c d, rest)
      else ("", s)
  end.

Fixpoint digits_value (acc : Z) (s : string) : Z :=
  match s with
  | "" => acc
  | String c r => digits_value (10 * acc + (code c - 48)) r
  end.

Fixpoint strip_prefix (p s : string) : option string :=
  match p, s with
  | "", _ => Some s
  | String a p', String b s' =>
      if Ascii.eqb a b then strip_prefix p' s' else None
  | _, _ => None
  end.

Definition hex_value (c : Ascii.ascii) : option Z :=
  let n := code c in
  if (48 <=? n) && (n <=? 57) then Some (n - 48)
  else if (65 <=? n) && (n <=? 70) then Some (n - 55)
  else if (97 <=? n) && (n <=? 102) then Some (n - 87)
  else None.

(** The character a one-letter escape stands for. *)
Definition unescape (c : Ascii.ascii) : option Ascii.ascii :=
  let n := code c in
  if (n =? 34) || (n =? 92) || (n =? 47) then Some c
  else if n =? 98 then Some (chr 8)
  else if n =? 102 then Some (chr 12)
  else if n =? 110 then Some (chr 10)
  else if n =? 114 then Some (chr 13)
  else if n =? 116 then Some (chr 9)
  else None.

(** The body of a string, from after its opening quotation mark. *)
Fixpoint scan_string (s : string) : option (string * string) :=
  match s with
  | "" => None
  | String c r =>
      if code c =? 34 then Some ("", r)
      else if code c =? 92 then
        match r with
        | String e r' =>
            if code e =? 117 then
              match r' with
              | String h1 (String h2 (String h3 (String h4 r''))) =>
                  a ← hex_value h1; b ← hex_value h2;
                  x ← hex_value h3; y ← hex_value h4;
                  if (a =? 0) && (b =? 0) then
                    '(t, rest) ← scan_string r'';
                    Some (String (chr (16 * x + y)) t, rest)
                  else None
              | _ => None
              end
            else
              c' ← unescape e;
              '(t, rest) ← scan_string r';
              Some (String c' t, rest)
        | "" => None
        end
      else if code c <? 32 then None
      else '(t, rest) ← scan_string r; Some (String c t, rest)
  end.

(** A number: integer part, then an optional fraction and exponent, each
    taken only when complete.  An integer is converted unless it has too
    many digits. *)
Definition scan_number (s : string) : scan Py.value :=
  let '(sign, r) :=
    match strip_prefix "-" s with
    | Some r => ("-", r)
    | None => ("", s)
    end in
  let '(ds, r1) := span_digits r in
  match ds with
  | "" => Malformed
  | String d more =>
      if (code d =? 48) && negb (String.eqb more "") then Malformed
      else
        let '(frac, r2) :=
          match strip_prefix "." r1 with
          | Some t =>
              let '(fs, t') := span_digits t in
              if String.eqb fs "" then ("", r1) else ("." +:+ fs, t')
          | None => ("", r1)
          end in
        let '(expo, r3) :=
          match r2 with
          | String e t =>
              if (code e =? 101) || (code e =? 69) then
                let '(sg, t1) :=
                  match t with
                  | String g t' =>
                      if (code g =? 43) || (code g =? 45)
                      then (String g "", t') else ("", t)
                  | "" => ("", t)
                  end in
                let '(es, t2) := span_digits t1 in
                if String.eqb es "" then ("", r2)
                else (String e sg +:+ es, t2)
              else ("", r2)
          | "" => ("", r2)
          end in
        if String.eqb frac "" && String.eqb expo ""
        then
          if (int_max_str_digits <? String.length ds)%nat
          then Exc Py.ValueError
          else Scanned (Py.PInt (if String.eqb sign "" then digits_value 0 ds
                                 else - digits_value 0 ds)) r3
        else Scanned (Py.PFloat (sign +:+ ds +:+ frac +:+ expo)) r3
  end.

(** A constant or a number. *)
Definition scan_atom (s : string) : scan Py.value :=
  match strip_prefix "null" s with
  | Some r => Scanned Py.PNone r
  | None =>
  match strip_prefix "true" s with
  | Some r => Scanned (Py.PBool true) r
  | None =>
  match strip_prefix "false" s with
  | Some r => Scanned (Py.PBool false) r
  | None =>
  match strip_prefix "NaN" s with
  | Some r => Scanned (Py.PFloat "NaN") r
  | None =>
  match strip_prefix "Infinity" s with
  | Some r => Scanned (Py.PFloat "Infinity") r
  | None =>
  match strip_prefix "-Infinity" s with
  | Some r => Scanned (Py.PFloat "-Infinity") r
  | None => scan_number s
  end end end end end end.

(** One value at the front of [s]; [elements] and [members] continue an
    array after its bracket and an object after its brace.  The first
    argument bounds the number of calls; the second is the number of arrays
    and objects that may still be entered, one inside the other. *)
Fixpoint scan_once (n depth : nat) (s : string) : scan Py.value :=
  match n with
  | O => Malformed
  | S n =>
      match s with
      | "" => Malformed
      | String c r =>
          if code c =? 34 then
            scan_bind (scan_option (scan_string r))
              (λ t rest, Scanned (Py.PStr t) rest)
          else if code c =? 123 then
            match depth with
            | O => Exc Py.RecursionError
            | S depth =>
                match skip_ws r with
                | "" => Malformed
                | String c' rest as r' =>
                    if code c' =? 125 then Scanned (Py.PDict ∅) rest
                    else scan_bind (members n depth ∅ r')
                           (λ d rest', Scanned (Py.PDict d) rest')
                end
            end
          else if code c =? 91 then
            match depth with
            | O => Exc Py.RecursionError
            | S depth =>
                match skip_ws r with
                | "" => Malformed
                | String c' rest as r' =>
                    if code c' =? 93 then Scanned (Py.PList []) rest
                    else scan_bind (elements n depth [] r')
                           (λ l rest', Scanned (Py.PList l) rest')
                end
            end
          else scan_atom s
      end
  end
with elements (n depth : nat) (acc : list Py.value) (s : string)
  : scan (list Py.value) :=
  match n with
  | O => Malformed
  | S n =>
      scan_bind (scan_once n depth s) (λ v r,
        match skip_ws r with
        | "" => Malformed
        | String c rest =>
            if code c =? 93 then Scanned (acc ++ [v]) rest
            else if code c =? 44
            then elements n depth (acc ++ [v]) (skip_ws rest)
            else Malformed
        end)
  end
with members (n depth : nat) (acc : gmap string Py.value) (s : string)
  : scan (gmap string Py.value) :=
  match n with
  | O => Malformed
  | S n =>
      match s with
      | "" => Malformed
      | String c r =>
          if code c =? 34 then
            scan_bind (scan_option (scan_string r)) (λ key r1,
              match skip_ws r1 with
              | "" => Malformed
              | String c1 r2 =>
                  if code c1 =? 58 then
                    scan_bind (scan_once n depth (skip_ws r2)) (λ v r3,
                      match skip_ws r3 with
                      | "" => Malformed
                      | String c3 rest =>
                          if code c3 =? 125
                          then Scanned (<[key:=v]> acc) rest
                          else if code c3 =? 44
                          then members n depth (<[key:=v]> acc) (skip_ws rest)
                          else Malformed
                      end)
                  else Malformed
              end)
          else Malformed
      end
  end.

(** [json.loads(s)]: one value, whitespace allowed around it, nothing else. *)
Definition loads (s : string) : Py.loads_result :=
  match scan_once (2 * String.length s + 2) recursion_limit (skip_ws s) with
  | Scanned v rest =>
      if String.eqb (skip_ws rest) "" then Py.Loaded v else Py.JSONDecodeError
  | Malformed => Py.JSONDecodeError
  | Exc e => Py.Raises e
  end.

End JsonText.

(** ** Vocabulary of the properties *)

(** The environment names the two actions read. *)
Definition messenger_variables : list string :=
  [ "TWILIO_ACCOUNT_SID"; "TWILIO_AUTH_TOKEN";
    "TWILIO_WHATSAPP_TO"; "TWILIO_WHATSAPP_FROM" ].

Definition verifier_variables : list string :=
  [ "TWILIO_ACCOUNT_SID"; "TWILIO_AUTH_TOKEN" ].

(** The host with the variable [name] removed from its environment. *)
Definition unset (name : string) (h : Host) : Host :=
  {| environment := delete name (environment h); exec := exec h |}.

(** A result with extracted content and no error. *)
Definition success (r : ActionResult) : Prop :=
  is_Some (extracted_content r) ∧ error r = None.

(** The action returned, and what it returned is a success. *)
Definition succeeds (x : Py.result ActionResult * list (list string)) : Prop :=
  ∃ r, outcome x = Py.Return r ∧ success r.

(** Exactly one of the two text fields holds a non-empty text. *)
Definition exactly_one_populated (r : ActionResult) : Prop :=
  xorb (Py.truthy (extracted_content r)) (Py.truthy (error r)) = true.

(** The credentials the verifier needs are set and not empty. *)
Definition verifier_ready (h : Host) : Prop :=
  Py.all [environ h !! "TWILIO_ACCOUNT_SID";
          environ h !! "TWILIO_AUTH_TOKEN"] = true.

(** The subprocess the verifier launches on a host, and its answer. *)
Definition list_request (h : Host) : list string :=
  verify_command (environ h !! "TWILIO_ACCOUNT_SID")
                 (environ h !! "TWILIO_AUTH_TOKEN").

Definition list_response (h : Host) : Process := exec h (list_request h).

(** The list request went through and its body decodes to the object [d]. *)
Definition response_object (json_loads : string → Py.loads_result)
    (h : Host) (d : gmap string Py.value) : Prop :=
  verifier_ready h
  ∧ returncode (list_response h) = 0
  ∧ json_loads (stdout (list_response h)) = Py.Loaded (Py.PDict d).

(** The response is an object whose ["messages"] entry is the list [l]. *)
Definition inbound_messages (json_loads : string → Py.loads_result)
    (h : Host) (l : list Py.value) : Prop :=
  ∃ d, response_object json_loads h d ∧ d !! "messages" = Some (Py.PList l).

(** What the verifier reports for a normalized received text. *)
Definition verdict (expected : option string) (received : string)
  : ActionResult :=
  if Py.truthy expected then
    if String.eqb received (Py.lower (Py.fmt expected))
    then result_content "Message verified successfully."
    else result_error "Received message does not match the expected message."
  else
    if String.eqb received "yes"
    then result_content "Task completed successfully. User replied 'Yes'."
    else result_error ("User did not reply 'Yes'. Received: " +:+ received).

(** The check the verifier applies to the one record it has selected. *)
Definition judge (expected : option string) (second_last_message : Py.value)
  : Py.result ActionResult :=
  match Py.get second_last_message "body" (Py.PStr "") with
  | Py.Return body =>
      match Py.strip_of body with
      | Py.Return stripped => Py.Return (verdict expected (Py.lower stripped))
      | Py.Raise e => Py.Raise e
      end
  | Py.Raise e => Py.Raise e
  end.

(** All four variables of the Messenger are set and not empty. *)
Definition messenger_ready (h : Host) : Prop :=
  Py.all [environ h !! "TWILIO_ACCOUNT_SID";
          environ h !! "TWILIO_AUTH_TOKEN";
          environ h !! "TWILIO_WHATSAPP_TO";
          environ h !! "TWILIO_WHATSAPP_FROM"] = true.

(** The host [h] with another environment. *)
Definition with_environ (env : gmap string string) (h : Host) : Host :=
  {| environment := env; exec := exec h |}.

(** A text made of whitespace only (the empty text included). *)
Fixpoint blank (s : string) : bool :=
  match s with
  | "" => true
  | String c r => Py.isspace c && blank r
  end.

(** The decoded values that are objects, and those that are texts. *)
Definition is_object (v : Py.value) : bool :=
  match v with Py.PDict _ => true | _ => false end.

Definition is_text (v : Py.value) : bool :=
  match v with Py.PStr _ => true | _ => false end.

(** The decoded values that [len] rejects. *)
Definition is_unsized (v : Py.value) : bool :=
  match v with
  | Py.PNone | Py.PBool _ | Py.PInt _ | Py.PFloat _ => true
  | _ => false
  end.

(** The status the provider reports in the body of an error answer: an
    object whose "status" entry is the HTTP status, 400 or above. *)
Definition provider_error_status (body : string) : option Z :=
  match JsonText.loads body with
  | Py.Loaded (Py.PDict d) =>
      match d !! "status" with
      | Some (Py.PInt n) => if 400 <=? n then Some n else None
      | _ => None
      end
  | _ => None
  end.

(** The text made of the one character NUL. *)
Definition NUL : string := String (Ascii.ascii_of_nat 0) "".


(** ** Hosts for running the actions *)

Definition credentials : gmap string string :=
  list_to_map [ ("TWILIO_ACCOUNT_SID", "AC00");
                ("TWILIO_AUTH_TOKEN", "token");
                ("TWILIO_WHATSAPP_TO", "whatsapp:+4900");
                ("TWILIO_WHATSAPP_FROM", "whatsapp:+1400") ].

(** A host with all credentials on which curl exits with [rc] after writing
    [out] and [err]. *)
Definition provider (rc : Z) (out err : string) : Host :=
  {| environment := credentials; exec := λ _, mkProcess rc out err |}.

(** A response with two records, the newer first. *)
Definition two_messages (newest second : string) : string :=
  JsonText.dq "{'messages': [{'body': '" +:+ newest
    +:+ JsonText.dq "', 'from': 'whatsapp:+4900'}, {'body': '" +:+ second
    +:+ JsonText.dq "', 'from': 'whatsapp:+4900'}]}".

(** ** How the actions run *)

Ltac run_task :=
  cbv [mbind Task_bind getenv mret Task_ret create_subprocess_exec
       communicate lift Py.decode outcome launched];
  cbn [negb app fst snd].

Lemma has_nul_append a b :
  Py.has_nul (a +:+ b) = Py.has_nul a || Py.has_nul b.
Proof.
  induction a as [|c r IH]; [reflexivity|].
  change (String c r +:+ b) with (String c (r +:+ b)).
  cbn [Py.has_nul]. by rewrite IH, orb_assoc.
Qed.

Lemma has_nul_c_string s : Py.has_nul (Py.c_string s) = false.
Proof.
  induction s as [|c r IH]; [reflexivity|].
  cbn [Py.c_string].
  destruct (Z.of_nat (Ascii.nat_of_ascii c) =? 0) eqn:E; [reflexivity|].
  cbn [Py.has_nul]. by rewrite E, IH.
Qed.

Lemma c_string_nul_free s : Py.has_nul s = false → Py.c_string s = s.
Proof.
  induction s as [|c r IH]; [reflexivity|].
  cbn [Py.has_nul Py.c_string].
  destruct (Z.of_nat (Ascii.nat_of_ascii c) =? 0); [discriminate|].
  cbn [orb]. intros H. by rewrite IH.
Qed.

(** No value of the environment holds a NUL. *)
Lemma environ_nul_free h name value :
  environ h !! name = Some value → Py.has_nul value = false.
Proof.
  unfold environ. rewrite lookup_fmap.
  destruct (environment h !! name); [|discriminate].
  intros [= <-]. apply has_nul_c_string.
Qed.

Lemma environ_unset name h :
  environ (unset name h) = delete name (environ h).
Proof. unfold environ, unset. cbn [environment]. apply fmap_delete. Qed.

(** An environment that agrees with the one of a host on a name is read
    there as it stands. *)
Lemma environ_with_environ env h name :
  env !! name = environ h !! name →
  environ (with_environ env h) !! name = environ h !! name.
Proof.
  intros Hagree. unfold environ at 1, with_environ. cbn [environment].
  rewrite lookup_fmap, Hagree.
  destruct (environ h !! name) as [v|] eqn:E; [|reflexivity].
  cbn. f_equal. apply c_string_nul_free. by apply (environ_nul_free h name).
Qed.

Lemma fmt_environ_nul_free h name :
  Py.has_nul (Py.fmt (environ h !! name)) = false.
Proof.
  destruct (environ h !! name) as [v|] eqn:E; [|reflexivity].
  by apply (environ_nul_free h name).
Qed.

Lemma verify_command_nul_free h a b :
  existsb Py.has_nul (verify_command (environ h !! a) (environ h !! b))
  = false.
Proof.
  unfold verify_command. cbn [existsb].
  rewrite !has_nul_append, !fmt_environ_nul_free. reflexivity.
Qed.

Lemma send_command_has_nul h a b c d text :
  existsb Py.has_nul
    (send_command (environ h !! a) (environ h !! b) (environ h !! c)
       (environ h !! d) text)
  = Py.has_nul text.
Proof.
  unfold send_command. cbn [existsb].
  rewrite !has_nul_append, !fmt_environ_nul_free.
  destruct (Py.has_nul text); reflexivity.
Qed.

Lemma send_unfold params h :
  send_twilio_message params h =
  let account_sid := environ h !! "TWILIO_ACCOUNT_SID" in
  let auth_token := environ h !! "TWILIO_AUTH_TOKEN" in
  let to_number := environ h !! "TWILIO_WHATSAPP_TO" in
  let from_number := environ h !! "TWILIO_WHATSAPP_FROM" in
  if Py.all [account_sid; auth_token; to_number; from_number] then
    let argv := send_command account_sid auth_token to_number from_number
                  (message params) in
    if Py.has_nul (message params) then (Py.Raise Py.ValueError, [])
    else
      (Py.Return
         (if returncode (exec h argv) =? 0
          then result_content "Message sent successfully"
          else result_error ("Failed to send WhatsApp message: "
                               +:+ stderr (exec h argv))),
       [argv])
  else (Py.Return (result_error missing_credentials), []).
Proof.
  unfold send_twilio_message. run_task.
  destruct (Py.all _); cbn [negb app]; [|reflexivity].
  rewrite send_command_has_nul.
  destruct (Py.has_nul (message params)); [reflexivity|].
  destruct (returncode _ =? 0); reflexivity.
Qed.

Lemma all_false_of_falsy (l : list (option string)) (o : option string) :
  o ∈ l → Py.truthy o = false → Py.all l = false.
Proof.
  intros Hin Hf. unfold Py.all.
  destruct (forallb Py.truthy l) eqn:E; [|reflexivity].
  rewrite forallb_forall in E.
  rewrite <- Hf. symmetry. apply E. by apply list_elem_of_In.
Qed.

Section VerifierRuns.

Variable json_loads : string → Py.loads_result.
Variable h : Host.
Variable params : VerifyTwilioMessageAction.

Lemma verify_not_ready :
  Py.all [environ h !! "TWILIO_ACCOUNT_SID";
          environ h !! "TWILIO_AUTH_TOKEN"] = false →
  verify_twilio_message json_loads params h
  = (Py.Return (result_error missing_credentials), []).
Proof.
  intros E. unfold verify_twilio_message. run_task. rewrite E. reflexivity.
Qed.

Lemma verify_launched :
  verifier_ready h →
  launched (verify_twilio_message json_loads params h) = [list_request h].
Proof.
  intros E. unfold verifier_ready in E.
  unfold verify_twilio_message, list_request. run_task. rewrite E.
  cbn [negb]. rewrite verify_command_nul_free.
  destruct (returncode _ =? 0); [|reflexivity].
  destruct (json_loads _) as [v| |e]; [|reflexivity..].
  destruct (Py.get v _ _) as [ms|]; [|reflexivity].
  destruct (Py.len ms) as [n|]; [|reflexivity].
  destruct (2 <=? n); [|reflexivity].
  destruct (Py.getitem ms 1) as [rec|]; [|reflexivity].
  destruct (Py.get rec "body" _) as [b|]; [|reflexivity].
  destruct (Py.strip_of b) as [s|]; [|reflexivity].
  destruct (Py.get rec "from" _) as [f|]; [|reflexivity].
  destruct (Py.truthy _).
  - destruct (Py.lower_of _) as [e|]; [|reflexivity].
    destruct (String.eqb _ _); reflexivity.
  - destruct (String.eqb _ _); reflexivity.
Qed.

Lemma verify_transport_error :
  verifier_ready h → returncode (list_response h) ≠ 0 →
  outcome (verify_twilio_message json_loads params h)
  = Py.Return (result_error ("Error receiving Twilio message. Error: "
                               +:+ stderr (list_response h))).
Proof.
  intros E Hrc. unfold verifier_ready in E. apply Z.eqb_neq in Hrc.
  unfold list_response, list_request in *.
  unfold verify_twilio_message. run_task. rewrite E. cbn [negb].
  rewrite verify_command_nul_free, Hrc. reflexivity.
Qed.

Lemma verify_undecodable :
  verifier_ready h → returncode (list_response h) = 0 →
  json_loads (stdout (list_response h)) = Py.JSONDecodeError →
  outcome (verify_twilio_message json_loads params h)
  = Py.Return (result_error ("Error decoding Twilio message response: "
                               +:+ stdout (list_response h))).
Proof.
  intros E Hrc Hj. unfold verifier_ready in E. apply Z.eqb_eq in Hrc.
  unfold list_response, list_request in *.
  unfold verify_twilio_message. run_task. rewrite E. cbn [negb].
  rewrite verify_command_nul_free, Hrc, Hj. reflexivity.
Qed.

(** An exception of the decoder other than the decoding error escapes. *)
Lemma verify_decoder_raises e :
  verifier_ready h → returncode (list_response h) = 0 →
  json_loads (stdout (list_response h)) = Py.Raises e →
  outcome (verify_twilio_message json_loads params h) = Py.Raise e.
Proof.
  intros E Hrc Hj. unfold verifier_ready in E. apply Z.eqb_eq in Hrc.
  unfold list_response, list_request in *.
  unfold verify_twilio_message. run_task. rewrite E. cbn [negb].
  rewrite verify_command_nul_free, Hrc, Hj. reflexivity.
Qed.

(** With the response decoded, the rest is a pure function of the value. *)
Lemma verify_decoded v :
  verifier_ready h → returncode (list_response h) = 0 →
  json_loads (stdout (list_response h)) = Py.Loaded v →
  outcome (verify_twilio_message json_loads params h)
  = match Py.get v "messages" (Py.PList []) with
    | Py.Return messages =>
        match Py.len messages with
        | Py.Return n =>
            if 2 <=? n then
              match Py.getitem messages 1 with
              | Py.Return rec => judge (expected_message params) rec
              | Py.Raise e => Py.Raise e
              end
            else Py.Return (result_error
              "Not enough messages found to retrieve the second-to-last one.")
        | Py.Raise e => Py.Raise e
        end
    | Py.Raise e => Py.Raise e
    end.
Proof.
  intros E Hrc Hj. unfold verifier_ready in E. apply Z.eqb_eq in Hrc.
  unfold list_response, list_request in *.
  unfold verify_twilio_message. run_task. rewrite E. cbn [negb].
  rewrite verify_command_nul_free, Hrc, Hj.
  destruct (Py.get v _ _) as [ms|]; [|reflexivity].
  destruct (Py.len ms) as [n|]; [|reflexivity].
  destruct (2 <=? n); [|reflexivity].
  destruct (Py.getitem ms 1) as [rec|]; [|reflexivity].
  unfold judge, verdict.
  destruct (Py.get rec "body" _) as [b|] eqn:Hb; [|reflexivity].
  destruct (Py.strip_of b) as [s|]; [|reflexivity].
  destruct rec; try discriminate Hb. cbn [Py.get].
  destruct (expected_message params) as [[|c e]|]; cbn [Py.truthy Py.lower_of Py.fmt].
  - destruct (String.eqb _ _); reflexivity.
  - destruct (String.eqb _ _); reflexivity.
  - destruct (String.eqb _ _); reflexivity.
Qed.

End VerifierRuns.

Section SelectedRecord.

Variable json_loads : string → Py.loads_result.
Variable h : Host.
Variable params : VerifyTwilioMessageAction.

Lemma verify_no_messages_key d :
  response_object json_loads h d → d !! "messages" = None →
  outcome (verify_twilio_message json_loads params h)
  = Py.Return (result_error
      "Not enough messages found to retrieve the second-to-last one.").
Proof.
  intros (E & Hrc & Hj) Hd.
  rewrite (verify_decoded _ _ _ _ E Hrc Hj).
  cbn [Py.get]. rewrite Hd. reflexivity.
Qed.

Lemma verify_too_few l :
  inbound_messages json_loads h l → (length l < 2)%nat →
  outcome (verify_twilio_message json_loads params h)
  = Py.Return (result_error
      "Not enough messages found to retrieve the second-to-last one.").
Proof.
  intros (d & (E & Hrc & Hj) & Hd) Hlen.
  rewrite (verify_decoded _ _ _ _ E Hrc Hj).
  cbn [Py.get]. rewrite Hd. cbn [default from_option id Py.len].
  destruct (Z.leb_spec 2 (Z.of_nat (length l))); [lia|reflexivity].
Qed.

Lemma verify_selected l rec :
  inbound_messages json_loads h l → l !! 1%nat = Some rec →
  outcome (verify_twilio_message json_loads params h)
  = judge (expected_message params) rec.
Proof.
  intros (d & (E & Hrc & Hj) & Hd) Hrec.
  rewrite (verify_decoded _ _ _ _ E Hrc Hj).
  cbn [Py.get]. rewrite Hd. cbn [default from_option id Py.len Py.getitem].
  pose proof (lookup_lt_Some _ _ _ Hrec) as Hlen.
  destruct (Z.leb_spec 2 (Z.of_nat (length l))); [|lia].
  rewrite Hrec. reflexivity.
Qed.

End SelectedRecord.

Lemma judge_record expected (rec : gmap string Py.value) :
  judge expected (Py.PDict rec)
  = match default (Py.PStr "") (rec !! "body") with
    | Py.PStr body =>
        Py.Return (verdict expected (Py.lower (Py.strip body)))
    | _ => Py.Raise Py.AttributeError
    end.
Proof.
  unfold judge. cbn [Py.get].
  destruct (default _ _); reflexivity.
Qed.

Lemma verdict_success expected received :
  success (verdict expected received)
  ↔ received = (if Py.truthy expected then Py.lower (Py.fmt expected)
                else "yes").
Proof.
  unfold verdict, success.
  destruct (Py.truthy expected).
  - destruct (String.eqb_spec received (Py.lower (Py.fmt expected)))
      as [He|He]; cbn.
    + split; [done | intros _; split; [by eexists | reflexivity]].
    + split; [intros [_ ?]; discriminate | done].
  - destruct (String.eqb_spec received "yes") as [He|He]; cbn.
    + split; [done | intros _; split; [by eexists | reflexivity]].
    + split; [intros [_ ?]; discriminate | done].
Qed.

Lemma succeeds_return (r : ActionResult)
    (x : Py.result ActionResult * list (list string)) :
  outcome x = Py.Return r → (succeeds x ↔ success r).
Proof.
  intros Hx. unfold succeeds. split.
  - intros (r' & Hr' & Hs). rewrite Hx in Hr'. by injection Hr' as ->.
  - intros Hs. by exists r.
Qed.

(** A variable that is unset or empty stops either action before any
    subprocess is launched. *)
Lemma send_falsy_variable (params : SendTwilioMessageAction) (h : Host)
    (name : string) :
  name ∈ messenger_variables → Py.truthy (environ h !! name) = false →
  send_twilio_message params h
  = (Py.Return (result_error missing_credentials), []).
Proof.
  intros Hin Hf. rewrite send_unfold. cbv zeta.
  rewrite (all_false_of_falsy _ (environ h !! name)); [reflexivity| |done].
  unfold messenger_variables in Hin.
  repeat (apply elem_of_cons in Hin as [->|Hin]; [set_solver|]).
  by apply elem_of_nil in Hin.
Qed.

Lemma verify_falsy_variable (json_loads : string → Py.loads_result)
    (params : VerifyTwilioMessageAction) (h : Host) (name : string) :
  name ∈ verifier_variables → Py.truthy (environ h !! name) = false →
  verify_twilio_message json_loads params h
  = (Py.Return (result_error missing_credentials), []).
Proof.
  intros Hin Hf. apply verify_not_ready.
  apply (all_false_of_falsy _ (environ h !! name)); [|done].
  unfold verifier_variables in Hin.
  repeat (apply elem_of_cons in Hin as [->|Hin]; [set_solver|]).
  by apply elem_of_nil in Hin.
Qed.

Lemma verdict_exactly_one expected received :
  exactly_one_populated (verdict expected received).
Proof.
  unfold verdict, exactly_one_populated.
  destruct (Py.truthy expected); destruct (String.eqb _ _); reflexivity.
Qed.

(** ** The Messenger *)

(** C1, as stated, fails: the status that decides is the exit status of
    curl, not a status the provider reports, and the provider's answer is
    never read.  On a host where the provider answers the request with its
    authentication error, status 401, and curl, run without the option that
    turns such an answer into a failure, exits with 0, the Messenger returns
    the success result and no error text. *)
Lemma send_provider_status_counterexample :
  let h := provider 0
    (JsonText.dq "{'code': 20003, 'message': 'Authenticate', 'status': 401}")
    "" in
  let run := send_twilio_message {| message := "Order placed" |} h in
  (∃ argv, launched run = [argv]
           ∧ provider_error_status (stdout (exec h argv)) = Some 401)
  ∧ outcome run = Py.Return
      {| is_done := false;
         extracted_content := Some "Message sent successfully";
         error := None |}.
Proof.
  cbv zeta. split.
  - eexists. split; vm_compute; reflexivity.
  - vm_compute. reflexivity.
Qed.

(** C1, amended. The Messenger returns a success result, whose extracted
    content is the confirmation string and whose error is unset, if and only
    if the curl subprocess of the request was launched and exited with
    status 0, whatever the provider answered; when the subprocess exits with
    any other status the result carries, in its error field, "Failed to send
    WhatsApp message: " followed by the text curl wrote to its standard
    error. *)
Theorem send_succeeds_iff_success_status
    (params : SendTwilioMessageAction) (h : Host) :
  let run := send_twilio_message params h in
  (succeeds run
     ↔ ∃ argv, launched run = [argv] ∧ returncode (exec h argv) = 0)
  ∧ (succeeds run →
       outcome run = Py.Return
         {| is_done := false;
            extracted_content := Some "Message sent successfully";
            error := None |})
  ∧ (∀ argv, launched run = [argv] → returncode (exec h argv) ≠ 0 →
       outcome run = Py.Return
         {| is_done := false;
            extracted_content := None;
            error := Some ("Failed to send WhatsApp message: "
                             +:+ stderr (exec h argv)) |}).
Proof.
  intros run. subst run. rewrite send_unfold. cbv zeta.
  destruct (Py.all _); [destruct (Py.has_nul _)|].
  - unfold succeeds, success, outcome, launched. cbn [fst snd].
    repeat split.
    + intros (r & Hr & _). discriminate.
    + intros (a & Ha & _). discriminate.
    + intros (r & Hr & _). discriminate.
    + intros a Ha. discriminate.
  - set (argv := send_command _ _ _ _ _).
    unfold succeeds, success, outcome, launched. cbn [fst snd].
    destruct (Z.eqb_spec (returncode (exec h argv)) 0) as [Hrc|Hrc].
    + repeat split.
      * intros _. by exists argv.
      * intros _. by eexists; split; [reflexivity | split; [eexists|]].
      * intros a [= <-] Ha. contradiction.
    + repeat split.
      * intros (r & [= <-] & [? ?] & ?). discriminate.
      * intros (a & [= <-] & Ha). contradiction.
      * intros (r & [= <-] & [? ?] & ?). discriminate.
      * intros a [= <-] _. reflexivity.
  - unfold succeeds, success, outcome, launched. cbn [fst snd].
    repeat split.
    + intros (r & [= <-] & [? ?] & ?). discriminate.
    + intros (a & Ha & _). discriminate.
    + intros (r & [= <-] & [? ?] & ?). discriminate.
    + intros a Ha. discriminate.
Qed.

Lemma send_succeeds_iff_success_status_witness :
  outcome (send_twilio_message {| message := "Order placed" |}
             (provider 6 "" "curl: (6) Could not resolve host"))
  = Py.Return
      {| is_done := false;
         extracted_content := None;
         error := Some ("Failed to send WhatsApp message: "
                          +:+ "curl: (6) Could not resolve host") |}.
Proof.
  refine (proj2 (proj2 (send_succeeds_iff_success_status
                          {| message := "Order placed" |}
                          (provider 6 "" "curl: (6) Could not resolve host")))
            _ _ _).
  - vm_compute. reflexivity.
  - vm_compute. discriminate.
Defined.

(** C6. Whenever at least one of the four credential and address variables
    is missing from the environment, the Messenger returns the
    configuration-error result and launches no request. *)
Theorem send_missing_variable
    (params : SendTwilioMessageAction) (h : Host) (name : string) :
  name ∈ messenger_variables → environ h !! name = None →
  outcome (send_twilio_message params h)
    = Py.Return
        {| is_done := false;
           extracted_content := None;
           error := Some "Missing Twilio credentials in environment variables" |}
  ∧ launched (send_twilio_message params h) = [].
Proof.
  intros Hin Hnone.
  rewrite (send_falsy_variable params h name Hin); [by split|].
  by rewrite Hnone.
Qed.

Lemma send_missing_variable_witness :
  outcome (send_twilio_message {| message := "Order placed" |}
             (unset "TWILIO_WHATSAPP_TO" (provider 0 "" "")))
    = Py.Return
        {| is_done := false;
           extracted_content := None;
           error := Some "Missing Twilio credentials in environment variables" |}
  ∧ launched (send_twilio_message {| message := "Order placed" |}
                (unset "TWILIO_WHATSAPP_TO" (provider 0 "" ""))) = [].
Proof.
  apply (send_missing_variable _ _ "TWILIO_WHATSAPP_TO").
  - vm_compute. repeat constructor.
  - vm_compute. reflexivity.
Defined.

(** C4, as stated, fails: "Done" does not return for every text.  With
    the four variables set, a text that holds a NUL makes the launch of the
    embedded send raise ValueError; nothing catches it, so "Done" raises it
    too, launches nothing and reports no completion. *)
Lemma done_raises_counterexample :
  let params := {| text := "Order" +:+ NUL +:+ "placed" |} in
  let run := done params (provider 0 "" "") in
  outcome run = Py.Raise Py.ValueError
  ∧ launched run = []
  ∧ outcome run
    ≠ Py.Return
        {| is_done := true;
           extracted_content := Some ("Task completed: " +:+ text params);
           error := None |}.
Proof.
  cbv zeta. split; [|split].
  - vm_compute. reflexivity.
  - vm_compute. reflexivity.
  - vm_compute. discriminate.
Qed.

(** C4, amended. For every text, whenever the embedded send returns a
    result, a success or a failure alike, the "Done" action discards it and
    returns the result with the is-done flag set and the content
    "Task completed: " followed by the text; when the embedded send raises,
    "Done" raises the same exception; in both cases it launches what the
    send launches. *)
Theorem done_reports_completion (params : DoneAction) (h : Host) :
  (∀ r, outcome (send_twilio_message {| message := text params |} h)
        = Py.Return r →
        outcome (done params h)
        = Py.Return
            {| is_done := true;
               extracted_content := Some ("Task completed: " +:+ text params);
               error := None |})
  ∧ (∀ e, outcome (send_twilio_message {| message := text params |} h)
          = Py.Raise e →
          outcome (done params h) = Py.Raise e)
  ∧ launched (done params h)
    = launched (send_twilio_message {| message := text params |} h).
Proof.
  unfold done. run_task.
  destruct (send_twilio_message {| message := text params |} h) as [[r|e] t];
    cbn [fst snd app].
  - split; [|split]; [done|discriminate|by rewrite app_nil_r].
  - split; [|split]; [discriminate|done|reflexivity].
Qed.

Lemma done_reports_completion_witness :
  outcome (done {| text := "Order placed" |}
             (provider 6 "" "curl: (6) Could not resolve host"))
  = Py.Return
      {| is_done := true;
         extracted_content := Some ("Task completed: " +:+ "Order placed");
         error := None |}
  ∧ outcome (done {| text := "Order" +:+ NUL +:+ "placed" |}
               (provider 0 "" ""))
    = Py.Raise Py.ValueError.
Proof.
  split.
  - refine (proj1 (done_reports_completion {| text := "Order placed" |}
                     (provider 6 "" "curl: (6) Could not resolve host"))
              (result_error ("Failed to send WhatsApp message: "
                               +:+ "curl: (6) Could not resolve host")) _).
    vm_compute. reflexivity.
  - refine (proj1 (proj2 (done_reports_completion
                            {| text := "Order" +:+ NUL +:+ "placed" |}
                            (provider 0 "" ""))) Py.ValueError _).
    vm_compute. reflexivity.
Defined.

(** ** The MessageVerifier *)

(** C3. When the response is an object whose list of inbound messages has
    fewer than two records, the verifier returns the insufficient-data error
    whatever message is expected; otherwise the record it verifies is the one
    at position 1, the second most recent: the outcome is the check of that
    record, and no other record of the list has a part in it. *)
Theorem verify_selects_second_record
    (json_loads : string → Py.loads_result)
    (params : VerifyTwilioMessageAction) (h : Host) (l : list Py.value) :
  inbound_messages json_loads h l →
  ((length l < 2)%nat →
     outcome (verify_twilio_message json_loads params h)
     = Py.Return
         {| is_done := false;
            extracted_content := None;
            error := Some
              "Not enough messages found to retrieve the second-to-last one." |})
  ∧ (∀ rec, (2 ≤ length l)%nat → l !! 1%nat = Some rec →
       outcome (verify_twilio_message json_loads params h)
       = judge (expected_message params) rec)
  ∧ (∀ (h' : Host) (l' : list Py.value),
       (2 ≤ length l)%nat → inbound_messages json_loads h' l' →
       l' !! 1%nat = l !! 1%nat →
       outcome (verify_twilio_message json_loads params h')
       = outcome (verify_twilio_message json_loads params h)).
Proof.
  intros Hin. split; [|split].
  - intros Hlen. by apply (verify_too_few _ _ _ l).
  - intros rec _ Hrec. by apply (verify_selected _ _ _ l).
  - intros h' l' Hlen Hin' Heq.
    destruct (lookup_lt_is_Some_2 l 1%nat Hlen) as [rec Hrec].
    rewrite (verify_selected _ _ _ l rec Hin Hrec).
    apply (verify_selected _ _ _ l' rec Hin'). by rewrite Heq.
Qed.

Lemma verify_selects_second_record_witness :
  outcome (verify_twilio_message JsonText.loads {| expected_message := None |}
             (provider 0 (JsonText.dq "{'messages': [{'body': 'yes'}]}") ""))
  = Py.Return
      {| is_done := false;
         extracted_content := None;
         error := Some
           "Not enough messages found to retrieve the second-to-last one." |}
  ∧ outcome (verify_twilio_message JsonText.loads
               {| expected_message := None |}
               (provider 0 (two_messages "yes" "no") ""))
    = judge None (Py.PDict {[ "body" := Py.PStr "no";
                              "from" := Py.PStr "whatsapp:+4900" ]}).
Proof.
  split.
  - refine (proj1 (verify_selects_second_record JsonText.loads
                     {| expected_message := None |}
                     (provider 0
                        (JsonText.dq "{'messages': [{'body': 'yes'}]}") "")
                     [Py.PDict {[ "body" := Py.PStr "yes" ]}] _) _).
    + eexists. split; [repeat split|]; vm_compute; reflexivity.
    + vm_compute. lia.
  - refine (proj1 (proj2 (verify_selects_second_record JsonText.loads
                     {| expected_message := None |}
                     (provider 0 (two_messages "yes" "no") "")
                     [Py.PDict {[ "body" := Py.PStr "yes";
                                  "from" := Py.PStr "whatsapp:+4900" ]};
                      Py.PDict {[ "body" := Py.PStr "no";
                                  "from" := Py.PStr "whatsapp:+4900" ]}] _))
              _ _ _).
    + eexists. split; [repeat split|]; vm_compute; reflexivity.
    + vm_compute. lia.
    + vm_compute. reflexivity.
Defined.




(** C10. When the response decodes to an object without a "messages" entry,
    the verifier returns the insufficient-data error, not the decoding error;
    and when the record at position 1 is an object without a "body" entry,
    the text compared is the empty string, so the result is the mismatch
    error of the branch taken, not the decoding error. *)
Theorem verify_absent_keys
    (json_loads : string → Py.loads_result)
    (params : VerifyTwilioMessageAction) (h : Host)
    (d : gmap string Py.value) :
  response_object json_loads h d →
  (d !! "messages" = None →
     outcome (verify_twilio_message json_loads params h)
     = Py.Return
         {| is_done := false;
            extracted_content := None;
            error := Some
              "Not enough messages found to retrieve the second-to-last one." |})
  ∧ (∀ (l : list Py.value) (rec : gmap string Py.value),
       d !! "messages" = Some (Py.PList l) →
       l !! 1%nat = Some (Py.PDict rec) → rec !! "body" = None →
       outcome (verify_twilio_message json_loads params h)
       = Py.Return (verdict (expected_message params) "")
       ∧ verdict (expected_message params) ""
         = {| is_done := false;
              extracted_content := None;
              error := Some
                (if Py.truthy (expected_message params)
                 then "Received message does not match the expected message."
                 else "User did not reply 'Yes'. Received: ") |}).
Proof.
  intros Hobj. split.
  - intros Hd. by apply (verify_no_messages_key _ _ _ d).
  - intros l rec Hd Hrec Hbody. split.
    + rewrite (verify_selected json_loads h params l (Py.PDict rec)).
      * rewrite judge_record, Hbody. reflexivity.
      * by exists d.
      * done.
    + unfold verdict.
      destruct (expected_message params) as [[|c e]|]; reflexivity.
Qed.

Lemma verify_absent_keys_witness :
  outcome (verify_twilio_message JsonText.loads
             {| expected_message := Some "Confirmed" |}
             (provider 0 (JsonText.dq "{'page_size': 2}") ""))
  = Py.Return
      {| is_done := false;
         extracted_content := None;
         error := Some
           "Not enough messages found to retrieve the second-to-last one." |}
  ∧ outcome (verify_twilio_message JsonText.loads
               {| expected_message := Some "Confirmed" |}
               (provider 0
                  (JsonText.dq "{'messages': [{'body': 'yes'}, {'sid': 'SM1'}]}")
                  ""))
    = Py.Return (verdict (Some "Confirmed") "").
Proof.
  split.
  - refine (proj1 (verify_absent_keys JsonText.loads
                     {| expected_message := Some "Confirmed" |}
                     (provider 0 (JsonText.dq "{'page_size': 2}") "")
                     {[ "page_size" := Py.PInt 2 ]} _) _).
    + repeat split; vm_compute; reflexivity.
    + vm_compute. reflexivity.
  - refine (proj1 (proj2 (verify_absent_keys JsonText.loads
                     {| expected_message := Some "Confirmed" |}
                     (provider 0
                        (JsonText.dq
                           "{'messages': [{'body': 'yes'}, {'sid': 'SM1'}]}")
                        "")
                     {[ "messages" :=
                          Py.PList [Py.PDict {[ "body" := Py.PStr "yes" ]};
                                    Py.PDict {[ "sid" := Py.PStr "SM1" ]}] ]} _)
                     _ {[ "sid" := Py.PStr "SM1" ]} _ _ _)).
    + repeat split; vm_compute; reflexivity.
    + vm_compute. reflexivity.
    + vm_compute. reflexivity.
    + vm_compute. reflexivity.
Defined.

(** C9. A present but empty expected message is handled as an absent one:
    the run is the same in every respect, and the verification of a record
    with a text body succeeds exactly when the normalized body is "yes". *)
Theorem verify_empty_expected_message
    (json_loads : string → Py.loads_result) (h : Host) :
  verify_twilio_message json_loads {| expected_message := Some "" |} h
  = verify_twilio_message json_loads {| expected_message := None |} h
  ∧ (∀ (l : list Py.value) (rec : gmap string Py.value) (body : string),
       inbound_messages json_loads h l →
       l !! 1%nat = Some (Py.PDict rec) → rec !! "body" = Some (Py.PStr body) →
       (succeeds (verify_twilio_message json_loads
                    {| expected_message := Some "" |} h)
        ↔ Py.lower (Py.strip body) = "yes")).
Proof.
  split; [reflexivity|].
  intros l rec body Hin Hrec Hbody.
  rewrite (succeeds_return (verdict (Some "") (Py.lower (Py.strip body)))).
  - apply verdict_success.
  - rewrite (verify_selected json_loads h _ l (Py.PDict rec) Hin Hrec).
    rewrite judge_record, Hbody. reflexivity.
Qed.

Lemma verify_empty_expected_message_witness :
  succeeds (verify_twilio_message JsonText.loads
              {| expected_message := Some "" |}
              (provider 0 (two_messages "no" " Yes ") ""))
  ↔ Py.lower (Py.strip " Yes ") = "yes".
Proof.
  refine (proj2 (verify_empty_expected_message JsonText.loads
                   (provider 0 (two_messages "no" " Yes ") ""))
            [Py.PDict {[ "body" := Py.PStr "no";
                         "from" := Py.PStr "whatsapp:+4900" ]};
             Py.PDict {[ "body" := Py.PStr " Yes ";
                         "from" := Py.PStr "whatsapp:+4900" ]}]
            {[ "body" := Py.PStr " Yes ";
               "from" := Py.PStr "whatsapp:+4900" ]}
            " Yes " _ _ _).
  - eexists. split; [repeat split|]; vm_compute; reflexivity.
  - vm_compute. reflexivity.
  - vm_compute. reflexivity.
Defined.

(** C2, as stated, fails: the expected message is lowercased but not
    trimmed, and an empty expected message is not compared at all.  On a
    response whose second record has the body "confirmed", the expected
    message " confirmed " normalizes to the same text and yet verification
    fails; on a response whose second record has the body "yes", the empty
    expected message normalizes to a different text and yet verification
    succeeds. *)
Lemma verify_trimmed_expected_counterexample :
  (let h := provider 0 (two_messages "hi" "confirmed") "" in
   let params := {| expected_message := Some " confirmed " |} in
   inbound_messages JsonText.loads h
     [Py.PDict {[ "body" := Py.PStr "hi";
                  "from" := Py.PStr "whatsapp:+4900" ]};
      Py.PDict {[ "body" := Py.PStr "confirmed";
                  "from" := Py.PStr "whatsapp:+4900" ]}]
   ∧ ¬ (succeeds (verify_twilio_message JsonText.loads params h)
        ↔ Py.lower (Py.strip "confirmed")
          = Py.lower (Py.strip " confirmed ")))
  ∧ (let h := provider 0 (two_messages "hi" "yes") "" in
     let params := {| expected_message := Some "" |} in
     inbound_messages JsonText.loads h
       [Py.PDict {[ "body" := Py.PStr "hi";
                    "from" := Py.PStr "whatsapp:+4900" ]};
        Py.PDict {[ "body" := Py.PStr "yes";
                    "from" := Py.PStr "whatsapp:+4900" ]}]
     ∧ ¬ (succeeds (verify_twilio_message JsonText.loads params h)
          ↔ Py.lower (Py.strip "yes") = Py.lower (Py.strip ""))).
Proof.
  split; cbv zeta; split.
  - eexists. split; [repeat split|]; vm_compute; reflexivity.
  - intros [_ Hback].
    destruct (Hback eq_refl) as (r & Hr & _ & He).
    vm_compute in Hr. injection Hr as <-. discriminate He.
  - eexists. split; [repeat split|]; vm_compute; reflexivity.
  - intros [Hforth _].
    assert (Py.lower (Py.strip "yes") = Py.lower (Py.strip "")) as Habs.
    { apply Hforth. eexists. split; [vm_compute; reflexivity|].
      split; [by eexists | reflexivity]. }
    vm_compute in Habs. discriminate Habs.
Qed.

(** C2, amended. For every selected record body and every supplied,
    non-empty expected message, the verifier compares the body, trimmed and
    lowercased, with the expected message lowercased and not trimmed, and
    succeeds exactly when the two are equal; in particular the expected
    message "Confirmed" is verified by the body "  CONFIRMED  ". *)
Theorem verify_compares_lowercased_expected
    (json_loads : string → Py.loads_result) (h : Host)
    (l : list Py.value) (rec : gmap string Py.value)
    (body expected : string) :
  inbound_messages json_loads h l →
  l !! 1%nat = Some (Py.PDict rec) → rec !! "body" = Some (Py.PStr body) →
  expected ≠ "" →
  (succeeds (verify_twilio_message json_loads
               {| expected_message := Some expected |} h)
   ↔ Py.lower (Py.strip body) = Py.lower expected)
  ∧ succeeds (verify_twilio_message JsonText.loads
                {| expected_message := Some "Confirmed" |}
                (provider 0 (two_messages "hi" "  CONFIRMED  ") "")).
Proof.
  intros Hin Hrec Hbody Hne. split.
  - rewrite (succeeds_return
               (verdict (Some expected) (Py.lower (Py.strip body)))).
    + rewrite verdict_success.
      destruct expected as [|c e]; [done|reflexivity].
    + rewrite (verify_selected json_loads h _ l (Py.PDict rec) Hin Hrec).
      rewrite judge_record, Hbody. reflexivity.
  - eexists. split; [vm_compute; reflexivity|].
    split; [by eexists | reflexivity].
Qed.

Lemma verify_compares_lowercased_expected_witness :
  (succeeds (verify_twilio_message JsonText.loads
               {| expected_message := Some "See You" |}
               (provider 0 (two_messages "hi" " see you") ""))
   ↔ Py.lower (Py.strip " see you") = Py.lower "See You")
  ∧ succeeds (verify_twilio_message JsonText.loads
                {| expected_message := Some "Confirmed" |}
                (provider 0 (two_messages "hi" "  CONFIRMED  ") "")).
Proof.
  refine (verify_compares_lowercased_expected JsonText.loads
            (provider 0 (two_messages "hi" " see you") "")
            [Py.PDict {[ "body" := Py.PStr "hi";
                         "from" := Py.PStr "whatsapp:+4900" ]};
             Py.PDict {[ "body" := Py.PStr " see you";
                         "from" := Py.PStr "whatsapp:+4900" ]}]
            {[ "body" := Py.PStr " see you";
               "from" := Py.PStr "whatsapp:+4900" ]}
            " see you" "See You" _ _ _ _).
  - eexists. split; [repeat split|]; vm_compute; reflexivity.
  - vm_compute. reflexivity.
  - vm_compute. reflexivity.
  - discriminate.
Defined.

(** ** Both actions *)

(** C5. Every result the Messenger returns, and every result the
    MessageVerifier returns, has exactly one of its content and error fields
    populated. *)
Theorem results_populate_exactly_one_field
    (json_loads : string → Py.loads_result)
    (sent : SendTwilioMessageAction) (checked : VerifyTwilioMessageAction)
    (h : Host) :
  (∀ r, outcome (send_twilio_message sent h) = Py.Return r →
        exactly_one_populated r)
  ∧ (∀ r, outcome (verify_twilio_message json_loads checked h) = Py.Return r →
          exactly_one_populated r).
Proof.
  split.
  - intros r. rewrite send_unfold. cbv zeta.
    destruct (Py.all _);
      [destruct (Py.has_nul _); [discriminate|];
       destruct (returncode _ =? 0)|];
      by intros [= <-].
  - intros r.
    destruct (Py.all [environ h !! "TWILIO_ACCOUNT_SID";
                      environ h !! "TWILIO_AUTH_TOKEN"]) eqn:E.
    + destruct (Z.eqb_spec (returncode (list_response h)) 0) as [Hrc|Hrc].
      * destruct (json_loads (stdout (list_response h))) as [v| |e] eqn:Hj.
        -- rewrite (verify_decoded _ _ _ v E Hrc Hj).
           destruct (Py.get v _ _) as [ms|]; [|discriminate].
           destruct (Py.len ms) as [n|]; [|discriminate].
           destruct (2 <=? n); [|by intros [= <-]].
           destruct (Py.getitem ms 1) as [rec|]; [|discriminate].
           unfold judge.
           destruct (Py.get rec _ _) as [b|]; [|discriminate].
           destruct (Py.strip_of b) as [s|]; [|discriminate].
           intros [= <-]. apply verdict_exactly_one.
        -- rewrite (verify_undecodable _ _ _ E Hrc Hj). by intros [= <-].
        -- rewrite (verify_decoder_raises _ _ _ e E Hrc Hj). discriminate.
      * rewrite (verify_transport_error _ _ _ E Hrc). by intros [= <-].
    + rewrite (verify_not_ready _ _ _ E). by intros [= <-].
Qed.

Lemma results_populate_exactly_one_field_witness :
  exactly_one_populated
    (result_error ("Failed to send WhatsApp message: "
                     +:+ "curl: (6) Could not resolve host"))
  ∧ exactly_one_populated
      (result_error "User did not reply 'Yes'. Received: no").
Proof.
  split.
  - refine (proj1 (results_populate_exactly_one_field JsonText.loads
                     {| message := "Order placed" |}
                     {| expected_message := None |}
                     (provider 6 "" "curl: (6) Could not resolve host")) _ _).
    vm_compute. reflexivity.
  - refine (proj2 (results_populate_exactly_one_field JsonText.loads
                     {| message := "Order placed" |}
                     {| expected_message := None |}
                     (provider 0 (two_messages "yes" "no") "")) _ _).
    vm_compute. reflexivity.
Defined.

(** C8. A variable that is present with the empty string as its value is
    handled by the Messenger and by the MessageVerifier as a missing one: the
    configuration-error result is returned, no request is launched, and the
    run is the one obtained with the variable removed. *)
Theorem empty_variable_is_missing
    (json_loads : string → Py.loads_result)
    (sent : SendTwilioMessageAction) (checked : VerifyTwilioMessageAction)
    (h : Host) (name : string) :
  environ h !! name = Some "" →
  (name ∈ messenger_variables →
     send_twilio_message sent h
     = (Py.Return (result_error missing_credentials), [])
     ∧ send_twilio_message sent h = send_twilio_message sent (unset name h))
  ∧ (name ∈ verifier_variables →
     verify_twilio_message json_loads checked h
     = (Py.Return (result_error missing_credentials), [])
     ∧ verify_twilio_message json_loads checked h
       = verify_twilio_message json_loads checked (unset name h)).
Proof.
  intros Hempty. split; intros Hin.
  - rewrite (send_falsy_variable sent h name Hin) by (by rewrite Hempty).
    rewrite (send_falsy_variable sent (unset name h) name Hin); [done|].
    by rewrite environ_unset, lookup_delete_eq.
  - rewrite (verify_falsy_variable json_loads checked h name Hin)
      by (by rewrite Hempty).
    rewrite (verify_falsy_variable json_loads checked (unset name h) name Hin);
      [done|].
    by rewrite environ_unset, lookup_delete_eq.
Qed.

Lemma empty_variable_is_missing_witness :
  let h := {| environment := <[ "TWILIO_AUTH_TOKEN" := "" ]> credentials;
              exec := λ _, mkProcess 0 "{}" "" |} in
  send_twilio_message {| message := "Order placed" |} h
  = (Py.Return (result_error missing_credentials), [])
  ∧ verify_twilio_message JsonText.loads {| expected_message := None |} h
    = (Py.Return (result_error missing_credentials), []).
Proof.
  intros h.
  pose proof (empty_variable_is_missing JsonText.loads
                {| message := "Order placed" |}
                {| expected_message := None |} h "TWILIO_AUTH_TOKEN") as W.
  destruct W as [Ws Wv]; [vm_compute; reflexivity|].
  split.
  - apply Ws. vm_compute. repeat constructor.
  - apply Wv. vm_compute. repeat constructor.
Defined.

(** ** Normalization of texts *)

Section Normalization.

Lemma lower_char_idempotent c :
  Py.lower_char (Py.lower_char c) = Py.lower_char c.
Proof. destruct c as [[] [] [] [] [] [] [] []]; reflexivity. Qed.

Lemma isspace_lower_char c : Py.isspace (Py.lower_char c) = Py.isspace c.
Proof. destruct c as [[] [] [] [] [] [] [] []]; reflexivity. Qed.

Lemma lower_idempotent s : Py.lower (Py.lower s) = Py.lower s.
Proof.
  induction s as [|c r IH]; [reflexivity|].
  cbn [Py.lower]. by rewrite lower_char_idempotent, IH.
Qed.

Lemma lower_length s : String.length (Py.lower s) = String.length s.
Proof. induction s as [|c r IH]; [reflexivity|]. cbn. by rewrite IH. Qed.

Lemma lstrip_lower s : Py.lstrip (Py.lower s) = Py.lower (Py.lstrip s).
Proof.
  induction s as [|c r IH]; [reflexivity|].
  cbn [Py.lower Py.lstrip]. rewrite isspace_lower_char.
  destruct (Py.isspace c); [exact IH | reflexivity].
Qed.

Lemma rstrip_lower s : Py.rstrip (Py.lower s) = Py.lower (Py.rstrip s).
Proof.
  induction s as [|c r IH]; [reflexivity|].
  cbn [Py.lower Py.rstrip]. rewrite IH, isspace_lower_char.
  destruct (Py.rstrip r); cbn [Py.lower]; [|reflexivity].
  destruct (Py.isspace c); reflexivity.
Qed.

Lemma strip_lower s : Py.strip (Py.lower s) = Py.lower (Py.strip s).
Proof. unfold Py.strip. by rewrite lstrip_lower, rstrip_lower. Qed.

Lemma lstrip_length s :
  (String.length (Py.lstrip s) ≤ String.length s)%nat.
Proof.
  induction s as [|c r IH]; [done|].
  cbn [Py.lstrip]. destruct (Py.isspace c); cbn [String.length]; lia.
Qed.

Lemma rstrip_length s :
  (String.length (Py.rstrip s) ≤ String.length s)%nat.
Proof.
  induction s as [|c r IH]; [done|].
  cbn [Py.rstrip]. destruct (Py.rstrip r) as [|c' r'].
  - destruct (Py.isspace c); cbn [String.length]; lia.
  - cbn [String.length] in *. lia.
Qed.

Lemma lstrip_same_length s :
  String.length (Py.lstrip s) = String.length s → Py.lstrip s = s.
Proof.
  destruct s as [|c r]; [done|].
  cbn [Py.lstrip]. destruct (Py.isspace c); [|done].
  intros H. pose proof (lstrip_length r). cbn [String.length] in H. lia.
Qed.

Lemma rstrip_same_length s :
  String.length (Py.rstrip s) = String.length s → Py.rstrip s = s.
Proof.
  induction s as [|c r IH]; [done|].
  cbn [Py.rstrip]. pose proof (rstrip_length r) as Hle.
  destruct (Py.rstrip r) as [|c' r'] eqn:E.
  - destruct (Py.isspace c); cbn [String.length] in *; intros H; [lia|].
    destruct r; [done|]. cbn [String.length] in H. lia.
  - cbn [String.length] in *. intros H. rewrite IH; [done|lia].
Qed.

Lemma strip_same_length s :
  String.length (Py.strip s) = String.length s → Py.strip s = s.
Proof.
  unfold Py.strip. intros H.
  pose proof (lstrip_length s). pose proof (rstrip_length (Py.lstrip s)).
  assert (Py.lstrip s = s) as Hl by (apply lstrip_same_length; lia).
  rewrite Hl in *. by apply rstrip_same_length.
Qed.

Lemma rstrip_idempotent s : Py.rstrip (Py.rstrip s) = Py.rstrip s.
Proof.
  induction s as [|c r IH]; [reflexivity|].
  cbn [Py.rstrip]. destruct (Py.rstrip r) as [|c' r'] eqn:E.
  - destruct (Py.isspace c) eqn:Hc; [reflexivity|].
    cbn [Py.rstrip]. by rewrite Hc.
  - change (Py.rstrip (String c (String c' r'))) with
      (match Py.rstrip (String c' r') with
       | "" => if Py.isspace c then "" else String c ""
       | u => String c u
       end).
    by rewrite IH.
Qed.

Lemma lstrip_rstrip_fixed s :
  Py.lstrip s = s → Py.lstrip (Py.rstrip s) = Py.rstrip s.
Proof.
  destruct s as [|c r]; [done|].
  cbn [Py.lstrip]. destruct (Py.isspace c) eqn:Hc.
  - intros H. pose proof (lstrip_length r) as Hle.
    rewrite H in Hle. cbn [String.length] in Hle. lia.
  - intros _. cbn [Py.rstrip].
    destruct (Py.rstrip r); rewrite ?Hc; cbn [Py.lstrip]; by rewrite Hc.
Qed.

Lemma lstrip_idempotent s : Py.lstrip (Py.lstrip s) = Py.lstrip s.
Proof.
  induction s as [|c r IH]; [reflexivity|].
  cbn [Py.lstrip]. destruct (Py.isspace c) eqn:Hc; [exact IH|].
  cbn [Py.lstrip]. by rewrite Hc.
Qed.

Lemma strip_idempotent s : Py.strip (Py.strip s) = Py.strip s.
Proof.
  unfold Py.strip.
  rewrite (lstrip_rstrip_fixed (Py.lstrip s)) by apply lstrip_idempotent.
  apply rstrip_idempotent.
Qed.

Lemma lstrip_blank s : blank s = true → Py.lstrip s = "".
Proof.
  induction s as [|c r IH]; [done|].
  cbn [blank Py.lstrip]. intros [Hc Hr]%andb_prop. rewrite Hc. by apply IH.
Qed.

Lemma rstrip_blank s : blank s = true → Py.rstrip s = "".
Proof.
  induction s as [|c r IH]; [done|].
  cbn [blank Py.rstrip]. intros [Hc Hr]%andb_prop.
  rewrite (IH Hr). by rewrite Hc.
Qed.

Lemma append_cons c r s : String c r +:+ s = String c (r +:+ s).
Proof. reflexivity. Qed.

Lemma append_empty s : "" +:+ s = s.
Proof. reflexivity. Qed.

Lemma lstrip_blank_app pre s :
  blank pre = true → Py.lstrip (pre +:+ s) = Py.lstrip s.
Proof.
  induction pre as [|c r IH]; [done|].
  rewrite append_cons. cbn [blank Py.lstrip]. intros [Hc Hr]%andb_prop.
  rewrite Hc. by apply IH.
Qed.

Lemma rstrip_app_blank s post :
  blank post = true → Py.rstrip (s +:+ post) = Py.rstrip s.
Proof.
  intros Hp. induction s as [|c r IH].
  - rewrite append_empty. by apply rstrip_blank.
  - rewrite append_cons. cbn [Py.rstrip]. by rewrite IH.
Qed.

Lemma lstrip_app_blank s post :
  blank post = true →
  Py.lstrip (s +:+ post) = (if blank s then "" else Py.lstrip s +:+ post).
Proof.
  intros Hp. induction s as [|c r IH].
  - rewrite append_empty. by apply lstrip_blank.
  - rewrite append_cons. cbn [blank Py.lstrip].
    destruct (Py.isspace c); cbn [andb]; [exact IH | reflexivity].
Qed.

Lemma strip_padded pre s post :
  blank pre = true → blank post = true →
  Py.strip (pre +:+ s +:+ post) = Py.strip s.
Proof.
  intros Hpre Hpost. unfold Py.strip.
  rewrite (lstrip_blank_app _ _ Hpre), (lstrip_app_blank _ _ Hpost).
  destruct (blank s) eqn:Hs.
  - by rewrite (lstrip_blank _ Hs).
  - by apply rstrip_app_blank.
Qed.

End Normalization.

(** ** Further properties of the Messenger *)



(** X2. The Messenger reads the environment through its four variables
    only: two environments that agree on them give the same run. *)
Theorem send_environment_frame
    (params : SendTwilioMessageAction) (h : Host)
    (env : gmap string string) :
  (∀ name, name ∈ messenger_variables → env !! name = environ h !! name) →
  send_twilio_message params (with_environ env h)
  = send_twilio_message params h.
Proof.
  intros Hagree. rewrite !send_unfold. cbn [with_environ exec].
  rewrite !environ_with_environ
    by (apply Hagree; unfold messenger_variables; set_solver).
  reflexivity.
Qed.

Lemma send_environment_frame_witness :
  send_twilio_message {| message := "Order placed" |}
    (with_environ (<[ "HOME" := "/root" ]> credentials) (provider 0 "" ""))
  = send_twilio_message {| message := "Order placed" |} (provider 0 "" "").
Proof.
  apply (send_environment_frame {| message := "Order placed" |}
           (provider 0 "" "") (<[ "HOME" := "/root" ]> credentials)).
  intros name Hin. unfold messenger_variables in Hin.
  repeat (apply elem_of_cons in Hin as [->|Hin]; [vm_compute; reflexivity|]).
  by apply elem_of_nil in Hin.
Defined.

(** X3. The Messenger never reads what the provider answered: two hosts
    with the same environment whose subprocesses exit with the same status,
    and write the same error text whenever that status is not zero, give the
    same run, whatever is written to the standard output. *)
Theorem send_ignores_response_body
    (params : SendTwilioMessageAction) (h h' : Host) :
  environ h' = environ h →
  (∀ argv, returncode (exec h' argv) = returncode (exec h argv)) →
  (∀ argv, returncode (exec h argv) ≠ 0 →
           stderr (exec h' argv) = stderr (exec h argv)) →
  send_twilio_message params h' = send_twilio_message params h.
Proof.
  intros Henv Hrc Herr. rewrite !send_unfold. cbv zeta. rewrite Henv.
  destruct (Py.all _); [|reflexivity].
  rewrite Hrc.
  destruct (Z.eqb_spec (returncode (exec h
    (send_command (environ h !! "TWILIO_ACCOUNT_SID")
       (environ h !! "TWILIO_AUTH_TOKEN") (environ h !! "TWILIO_WHATSAPP_TO")
       (environ h !! "TWILIO_WHATSAPP_FROM") (message params)))) 0)
    as [Hz|Hnz]; [reflexivity|].
  by rewrite (Herr _ Hnz).
Qed.

Lemma send_ignores_response_body_witness :
  send_twilio_message {| message := "Order placed" |}
    (provider 0 (JsonText.dq "{'code': 20003, 'status': 401}") "100 23")
  = send_twilio_message {| message := "Order placed" |}
      (provider 0 (JsonText.dq "{'sid': 'SM1', 'status': 'queued'}") "")
  ∧ send_twilio_message {| message := "Order placed" |}
      (provider 7 "<html>" "curl: (7) Failed to connect")
    = send_twilio_message {| message := "Order placed" |}
        (provider 7 "" "curl: (7) Failed to connect").
Proof.
  split.
  - apply (send_ignores_response_body {| message := "Order placed" |}
             (provider 0 (JsonText.dq "{'sid': 'SM1', 'status': 'queued'}") "")
             (provider 0 (JsonText.dq "{'code': 20003, 'status': 401}")
                "100 23")).
    + reflexivity.
    + intros argv. reflexivity.
    + intros argv Hnz. exfalso. apply Hnz. reflexivity.
  - apply (send_ignores_response_body {| message := "Order placed" |}
             (provider 7 "" "curl: (7) Failed to connect")
             (provider 7 "<html>" "curl: (7) Failed to connect")).
    + reflexivity.
    + intros argv. reflexivity.
    + intros argv _. reflexivity.
Defined.

(** ** Further properties of the MessageVerifier *)

(** X4. Whenever the account identifier or the token is missing from the
    environment, the verifier returns the configuration-error result and
    launches no request. *)
Theorem verify_missing_variable
    (json_loads : string → Py.loads_result)
    (params : VerifyTwilioMessageAction) (h : Host) (name : string) :
  name ∈ verifier_variables → environ h !! name = None →
  outcome (verify_twilio_message json_loads params h)
    = Py.Return
        {| is_done := false;
           extracted_content := None;
           error := Some "Missing Twilio credentials in environment variables" |}
  ∧ launched (verify_twilio_message json_loads params h) = [].
Proof.
  intros Hin Hnone.
  rewrite (verify_falsy_variable json_loads params h name Hin); [by split|].
  by rewrite Hnone.
Qed.

Lemma verify_missing_variable_witness :
  outcome (verify_twilio_message JsonText.loads
             {| expected_message := None |}
             (unset "TWILIO_ACCOUNT_SID"
                (provider 0 (two_messages "no" "yes") "")))
    = Py.Return
        {| is_done := false;
           extracted_content := None;
           error := Some "Missing Twilio credentials in environment variables" |}
  ∧ launched (verify_twilio_message JsonText.loads
                {| expected_message := None |}
                (unset "TWILIO_ACCOUNT_SID"
                   (provider 0 (two_messages "no" "yes") ""))) = [].
Proof.
  apply (verify_missing_variable _ _ _ "TWILIO_ACCOUNT_SID").
  - vm_compute. repeat constructor.
  - vm_compute. reflexivity.
Defined.

(** X5. The verifier reads the environment through the account identifier
    and the token only; in particular it runs the same with the destination
    and origin addresses removed. *)
Theorem verify_environment_frame
    (json_loads : string → Py.loads_result)
    (params : VerifyTwilioMessageAction) (h : Host)
    (env : gmap string string) :
  (∀ name, name ∈ verifier_variables → env !! name = environ h !! name) →
  verify_twilio_message json_loads params (with_environ env h)
  = verify_twilio_message json_loads params h.
Proof.
  intros Hagree. unfold verify_twilio_message. run_task.
  rewrite !environ_with_environ
    by (apply Hagree; unfold verifier_variables; set_solver).
  cbn [with_environ exec].
  destruct (Py.all _); cbn [negb]; [|reflexivity].
  destruct (existsb _ _); [reflexivity|].
  destruct (returncode _ =? 0); [|reflexivity].
  destruct (json_loads _) as [v| |e]; [|reflexivity..].
  destruct (Py.get v _ _) as [ms|]; [|reflexivity].
  destruct (Py.len ms) as [n|]; [|reflexivity].
  destruct (2 <=? n); [|reflexivity].
  destruct (Py.getitem ms 1) as [rec|]; [|reflexivity].
  destruct (Py.get rec "body" _) as [b|]; [|reflexivity].
  destruct (Py.strip_of b) as [s|]; [|reflexivity].
  destruct (Py.get rec "from" _) as [f|]; [|reflexivity].
  destruct (Py.truthy _).
  - destruct (Py.lower_of _) as [e|]; [|reflexivity].
    destruct (String.eqb _ _); reflexivity.
  - destruct (String.eqb _ _); reflexivity.
Qed.

Lemma verify_environment_frame_witness :
  verify_twilio_message JsonText.loads {| expected_message := None |}
    (with_environ
       (delete "TWILIO_WHATSAPP_TO" (delete "TWILIO_WHATSAPP_FROM" credentials))
       (provider 0 (two_messages "no" "yes") ""))
  = verify_twilio_message JsonText.loads {| expected_message := None |}
      (provider 0 (two_messages "no" "yes") "").
Proof.
  apply (verify_environment_frame JsonText.loads
           {| expected_message := None |}
           (provider 0 (two_messages "no" "yes") "")).
  intros name Hin. unfold verifier_variables in Hin.
  repeat (apply elem_of_cons in Hin as [->|Hin]; [vm_compute; reflexivity|]).
  by apply elem_of_nil in Hin.
Defined.

(** X6. With the account identifier and the token set and not empty, the
    verifier launches one curl process, a silent GET of the two newest
    inbound messages of the account, whatever message is expected and
    whatever comes back. *)
Theorem verify_launches_one_get
    (json_loads : string → Py.loads_result)
    (params : VerifyTwilioMessageAction) (h : Host) (sid token : string) :
  environ h !! "TWILIO_ACCOUNT_SID" = Some sid →
  environ h !! "TWILIO_AUTH_TOKEN" = Some token →
  sid ≠ "" → token ≠ "" →
  launched (verify_twilio_message json_loads params h)
  = [[ "curl"; "-s"; "-X"; "GET";
       "https://api.twilio.com/2010-04-01/Accounts/" +:+ sid
         +:+ "/Messages.json?PageSize=2&Direction=inbound";
       "-u"; sid +:+ ":" +:+ token ]].
Proof.
  intros Hs Ht Hsid Htoken.
  rewrite verify_launched.
  - unfold list_request. rewrite Hs, Ht. reflexivity.
  - unfold verifier_ready. rewrite Hs, Ht.
    destruct sid; [done|]. destruct token; [done|]. reflexivity.
Qed.

Lemma verify_launches_one_get_witness :
  launched (verify_twilio_message JsonText.loads
              {| expected_message := Some "Confirmed" |}
              (provider 0 "<html>" ""))
  = [[ "curl"; "-s"; "-X"; "GET";
       "https://api.twilio.com/2010-04-01/Accounts/AC00/Messages.json?PageSize=2&Direction=inbound";
       "-u"; "AC00:token" ]].
Proof.
  apply (verify_launches_one_get JsonText.loads
           {| expected_message := Some "Confirmed" |}
           (provider 0 "<html>" "") "AC00" "token");
    try (vm_compute; reflexivity); discriminate.
Defined.

(** X7. When the list request exits with a status other than zero, the
    verifier returns an error result that carries the raw error text, and
    the standard output is not decoded: the run is the same for every
    decoder. *)
Theorem verify_transport_failure
    (json_loads json_loads' : string → Py.loads_result)
    (params : VerifyTwilioMessageAction) (h : Host) :
  verifier_ready h → returncode (list_response h) ≠ 0 →
  outcome (verify_twilio_message json_loads params h)
    = Py.Return
        {| is_done := false;
           extracted_content := None;
           error := Some ("Error receiving Twilio message. Error: "
                            +:+ stderr (list_response h)) |}
  ∧ verify_twilio_message json_loads' params h
    = verify_twilio_message json_loads params h.
Proof.
  intros E Hrc. split; [by apply verify_transport_error|].
  unfold verifier_ready in E. apply Z.eqb_neq in Hrc.
  unfold list_response, list_request in Hrc.
  unfold verify_twilio_message. run_task. rewrite E. cbn [negb].
  rewrite verify_command_nul_free, Hrc. reflexivity.
Qed.

Lemma verify_transport_failure_witness :
  outcome (verify_twilio_message JsonText.loads
             {| expected_message := None |}
             (provider 28 (two_messages "no" "yes")
                "curl: (28) Operation timed out"))
    = Py.Return
        {| is_done := false;
           extracted_content := None;
           error := Some ("Error receiving Twilio message. Error: "
                            +:+ "curl: (28) Operation timed out") |}
  ∧ verify_twilio_message (λ _, Py.JSONDecodeError)
      {| expected_message := None |}
      (provider 28 (two_messages "no" "yes") "curl: (28) Operation timed out")
    = verify_twilio_message JsonText.loads {| expected_message := None |}
        (provider 28 (two_messages "no" "yes")
           "curl: (28) Operation timed out").
Proof.
  apply (verify_transport_failure JsonText.loads (λ _, Py.JSONDecodeError)
           {| expected_message := None |}
           (provider 28 (two_messages "no" "yes")
              "curl: (28) Operation timed out")).
  - vm_compute. reflexivity.
  - vm_compute. discriminate.
Defined.

(** X8. With no expected message, or an empty one, a selected body that
    does not normalize to "yes" gives the error that names the received
    text in its normalized form, trimmed and lowercased. *)
Theorem verify_sentinel_mismatch
    (json_loads : string → Py.loads_result)
    (params : VerifyTwilioMessageAction) (h : Host)
    (l : list Py.value) (rec : gmap string Py.value) (body : string) :
  inbound_messages json_loads h l →
  l !! 1%nat = Some (Py.PDict rec) → rec !! "body" = Some (Py.PStr body) →
  Py.truthy (expected_message params) = false →
  Py.lower (Py.strip body) ≠ "yes" →
  outcome (verify_twilio_message json_loads params h)
  = Py.Return
      {| is_done := false;
         extracted_content := None;
         error := Some ("User did not reply 'Yes'. Received: "
                          +:+ Py.lower (Py.strip body)) |}.
Proof.
  intros Hin Hrec Hbody Hexp Hne.
  rewrite (verify_selected json_loads h params l (Py.PDict rec) Hin Hrec).
  rewrite judge_record, Hbody. cbn [default from_option id].
  unfold verdict. rewrite Hexp.
  by destruct (String.eqb_spec (Py.lower (Py.strip body)) "yes").
Qed.

Lemma verify_sentinel_mismatch_witness :
  outcome (verify_twilio_message JsonText.loads
             {| expected_message := None |}
             (provider 0 (two_messages "yes" "  No Thanks ") ""))
  = Py.Return
      {| is_done := false;
         extracted_content := None;
         error := Some ("User did not reply 'Yes'. Received: "
                          +:+ Py.lower (Py.strip "  No Thanks ")) |}.
Proof.
  refine (verify_sentinel_mismatch JsonText.loads
            {| expected_message := None |}
            (provider 0 (two_messages "yes" "  No Thanks ") "")
            [Py.PDict {[ "body" := Py.PStr "yes";
                         "from" := Py.PStr "whatsapp:+4900" ]};
             Py.PDict {[ "body" := Py.PStr "  No Thanks ";
                         "from" := Py.PStr "whatsapp:+4900" ]}]
            {[ "body" := Py.PStr "  No Thanks ";
               "from" := Py.PStr "whatsapp:+4900" ]}
            "  No Thanks " _ _ _ _ _).
  - eexists. split; [repeat split|]; vm_compute; reflexivity.
  - vm_compute. reflexivity.
  - vm_compute. reflexivity.
  - reflexivity.
  - vm_compute. discriminate.
Defined.

(** X9. When the response decodes to a JSON value that is not an object,
    the verifier returns no result: after the request has been made, the
    AttributeError of the lookup of "messages" escapes the action. *)
Theorem verify_non_object_response
    (json_loads : string → Py.loads_result)
    (params : VerifyTwilioMessageAction) (h : Host) (v : Py.value) :
  verifier_ready h → returncode (list_response h) = 0 →
  json_loads (stdout (list_response h)) = Py.Loaded v →
  is_object v = false →
  verify_twilio_message json_loads params h
  = (Py.Raise Py.AttributeError, [list_request h]).
Proof.
  intros E Hrc Hj Hv.
  rewrite (surjective_pairing (verify_twilio_message json_loads params h)).
  f_equal; [|by apply verify_launched].
  change (fst ?x) with (outcome x).
  rewrite (verify_decoded _ _ _ v E Hrc Hj).
  by destruct v.
Qed.

Lemma verify_non_object_response_witness :
  verify_twilio_message JsonText.loads {| expected_message := None |}
    (provider 0 (JsonText.dq "[{'body': 'no'}, {'body': 'yes'}]") "")
  = (Py.Raise Py.AttributeError,
     [list_request
        (provider 0 (JsonText.dq "[{'body': 'no'}, {'body': 'yes'}]") "")]).
Proof.
  apply (verify_non_object_response JsonText.loads
           {| expected_message := None |}
           (provider 0 (JsonText.dq "[{'body': 'no'}, {'body': 'yes'}]") "")
           (Py.PList [Py.PDict {[ "body" := Py.PStr "no" ]};
                      Py.PDict {[ "body" := Py.PStr "yes" ]}]));
    vm_compute; reflexivity.
Defined.

(** X10. When the "messages" entry of the response object is not a list:
    a null, a boolean or a number makes the length test raise TypeError; a
    text or an object with fewer than two elements is reported as too few
    messages; a longer text raises AttributeError and a larger object raises
    KeyError. *)
Theorem verify_messages_not_a_list
    (json_loads : string → Py.loads_result)
    (params : VerifyTwilioMessageAction) (h : Host)
    (d : gmap string Py.value) (m : Py.value) :
  response_object json_loads h d → d !! "messages" = Some m →
  (is_unsized m = true →
     outcome (verify_twilio_message json_loads params h)
     = Py.Raise Py.TypeError)
  ∧ (∀ s, m = Py.PStr s →
       outcome (verify_twilio_message json_loads params h)
       = if (String.length s <? 2)%nat
         then Py.Return (result_error
           "Not enough messages found to retrieve the second-to-last one.")
         else Py.Raise Py.AttributeError)
  ∧ (∀ o, m = Py.PDict o →
       outcome (verify_twilio_message json_loads params h)
       = if (size o <? 2)%nat
         then Py.Return (result_error
           "Not enough messages found to retrieve the second-to-last one.")
         else Py.Raise Py.KeyError).
Proof.
  intros (E & Hrc & Hj) Hd.
  rewrite (verify_decoded _ _ _ _ E Hrc Hj).
  cbn [Py.get]. rewrite Hd. cbn [default from_option id].
  split; [|split].
  - by destruct m.
  - intros s ->. cbn [Py.len Py.getitem].
    destruct s as [|a [|b r]]; [reflexivity..|].
    cbn [String.length String.get].
    destruct (Z.leb_spec 2 (Z.of_nat (S (S (String.length r))))); [|lia].
    reflexivity.
  - intros o ->. cbn [Py.len Py.getitem].
    destruct (Nat.ltb_spec (size o) 2);
      destruct (Z.leb_spec 2 (Z.of_nat (size o))); try lia; reflexivity.
Qed.

Lemma verify_messages_not_a_list_witness :
  outcome (verify_twilio_message JsonText.loads
             {| expected_message := None |}
             (provider 0 (JsonText.dq "{'messages': null}") ""))
  = Py.Raise Py.TypeError
  ∧ outcome (verify_twilio_message JsonText.loads
               {| expected_message := None |}
               (provider 0 (JsonText.dq "{'messages': 'yes'}") ""))
    = (if (String.length "yes" <? 2)%nat
       then Py.Return (result_error
         "Not enough messages found to retrieve the second-to-last one.")
       else Py.Raise Py.AttributeError).
Proof.
  split.
  - refine (proj1 (verify_messages_not_a_list JsonText.loads
                     {| expected_message := None |}
                     (provider 0 (JsonText.dq "{'messages': null}") "")
                     {[ "messages" := Py.PNone ]} Py.PNone _ _) _).
    + repeat split; vm_compute; reflexivity.
    + vm_compute. reflexivity.
    + reflexivity.
  - refine (proj1 (proj2 (verify_messages_not_a_list JsonText.loads
                     {| expected_message := None |}
                     (provider 0 (JsonText.dq "{'messages': 'yes'}") "")
                     {[ "messages" := Py.PStr "yes" ]} (Py.PStr "yes") _ _))
              "yes" _).
    + repeat split; vm_compute; reflexivity.
    + vm_compute. reflexivity.
    + reflexivity.
Defined.

(** X11. For a response whose "messages" entry is a list, the verifier
    returns a result exactly when the list has fewer than two records or its
    record at position 1 is an object whose "body" entry is absent or a
    text; otherwise (the record is not an object, or its body is a null, a
    number, a boolean, a list or an object) an AttributeError escapes. *)
Theorem verify_returns_iff_record_well_formed
    (json_loads : string → Py.loads_result)
    (params : VerifyTwilioMessageAction) (h : Host) (l : list Py.value) :
  inbound_messages json_loads h l →
  ((∃ r, outcome (verify_twilio_message json_loads params h) = Py.Return r)
   ↔ (∀ rec, l !! 1%nat = Some rec →
        ∃ fields, rec = Py.PDict fields
          ∧ is_text (default (Py.PStr "") (fields !! "body")) = true))
  ∧ ((∀ r, outcome (verify_twilio_message json_loads params h) ≠ Py.Return r)
     → outcome (verify_twilio_message json_loads params h)
       = Py.Raise Py.AttributeError).
Proof.
  intros Hin.
  destruct (l !! 1%nat) as [rec|] eqn:Hrec.
  - rewrite (verify_selected json_loads h params l rec Hin Hrec).
    destruct rec as [| | | | |?|fields];
      try (split; [split; [intros [r Hr]; discriminate Hr
                          |intros H; destruct (H _ eq_refl) as (? & ? & _);
                           discriminate]
                  |reflexivity]).
    rewrite judge_record.
    destruct (default (Py.PStr "") (fields !! "body")) eqn:Hb;
      try (split; [split; [intros [r Hr]; discriminate Hr
                          |intros H; destruct (H _ eq_refl) as (f & [= <-] & Ht);
                           rewrite Hb in Ht; discriminate]
                  |reflexivity]).
    split.
    + split; [|by eexists].
      intros _ rec [= <-]. exists fields. by rewrite Hb.
    + intros H. by destruct (H (verdict (expected_message params)
                                  (Py.lower (Py.strip s)))).
  - rewrite (verify_too_few json_loads h params l Hin).
    + split; [split; [done | by eexists]|].
      intros H. by destruct (H (result_error
        "Not enough messages found to retrieve the second-to-last one.")).
    + apply lookup_ge_None in Hrec. lia.
Qed.

Lemma verify_returns_iff_record_well_formed_witness :
  outcome (verify_twilio_message JsonText.loads
             {| expected_message := Some "Confirmed" |}
             (provider 0
                (JsonText.dq "{'messages': [{'body': 'yes'}, {'body': null}]}")
                ""))
  = Py.Raise Py.AttributeError.
Proof.
  refine (proj2 (verify_returns_iff_record_well_formed JsonText.loads
                   {| expected_message := Some "Confirmed" |}
                   (provider 0
                      (JsonText.dq
                         "{'messages': [{'body': 'yes'}, {'body': null}]}")
                      "")
                   [Py.PDict {[ "body" := Py.PStr "yes" ]};
                    Py.PDict {[ "body" := Py.PNone ]}] _) _).
  - eexists. split; [repeat split|]; vm_compute; reflexivity.
  - intros r Hr. vm_compute in Hr. discriminate Hr.
Defined.

(** X12. The verdict does not see letter case or surrounding whitespace of
    the selected body: if one body equals, up to letter case, another body
    put between two runs of whitespace, the two verifications have the same
    outcome for the same expected message. *)
Theorem verify_body_case_and_padding
    (json_loads : string → Py.loads_result)
    (params : VerifyTwilioMessageAction) (h h' : Host)
    (l l' : list Py.value) (rec rec' : gmap string Py.value)
    (body body' pre post : string) :
  inbound_messages json_loads h l →
  l !! 1%nat = Some (Py.PDict rec) → rec !! "body" = Some (Py.PStr body) →
  inbound_messages json_loads h' l' →
  l' !! 1%nat = Some (Py.PDict rec') → rec' !! "body" = Some (Py.PStr body') →
  blank pre = true → blank post = true →
  Py.lower body' = Py.lower (pre +:+ body +:+ post) →
  outcome (verify_twilio_message json_loads params h')
  = outcome (verify_twilio_message json_loads params h).
Proof.
  intros Hin Hrec Hbody Hin' Hrec' Hbody' Hpre Hpost Heq.
  rewrite (verify_selected json_loads h params l _ Hin Hrec).
  rewrite (verify_selected json_loads h' params l' _ Hin' Hrec').
  rewrite !judge_record, Hbody, Hbody'. cbn [default from_option id].
  assert (Py.lower (Py.strip body') = Py.lower (Py.strip body)) as ->;
    [|reflexivity].
  rewrite <- (strip_lower body'), Heq, strip_lower.
  by rewrite (strip_padded pre body post Hpre Hpost).
Qed.

Lemma verify_body_case_and_padding_witness :
  outcome (verify_twilio_message JsonText.loads
             {| expected_message := Some "Confirmed" |}
             (provider 0 (two_messages "hi" "  CONFIRMED ") ""))
  = outcome (verify_twilio_message JsonText.loads
               {| expected_message := Some "Confirmed" |}
               (provider 0 (two_messages "hello" "confirmed") "")).
Proof.
  refine (verify_body_case_and_padding JsonText.loads
            {| expected_message := Some "Confirmed" |}
            (provider 0 (two_messages "hello" "confirmed") "")
            (provider 0 (two_messages "hi" "  CONFIRMED ") "")
            [Py.PDict {[ "body" := Py.PStr "hello";
                         "from" := Py.PStr "whatsapp:+4900" ]};
             Py.PDict {[ "body" := Py.PStr "confirmed";
                         "from" := Py.PStr "whatsapp:+4900" ]}]
            [Py.PDict {[ "body" := Py.PStr "hi";
                         "from" := Py.PStr "whatsapp:+4900" ]};
             Py.PDict {[ "body" := Py.PStr "  CONFIRMED ";
                         "from" := Py.PStr "whatsapp:+4900" ]}]
            {[ "body" := Py.PStr "confirmed";
               "from" := Py.PStr "whatsapp:+4900" ]}
            {[ "body" := Py.PStr "  CONFIRMED ";
               "from" := Py.PStr "whatsapp:+4900" ]}
            "confirmed" "  CONFIRMED " "  " " " _ _ _ _ _ _ _ _ _).
  - eexists. split; [repeat split|]; vm_compute; reflexivity.
  - vm_compute. reflexivity.
  - vm_compute. reflexivity.
  - eexists. split; [repeat split|]; vm_compute; reflexivity.
  - vm_compute. reflexivity.
  - vm_compute. reflexivity.
  - vm_compute. reflexivity.
  - vm_compute. reflexivity.
  - vm_compute. reflexivity.
Defined.

(** X13. An expected message that begins or ends with whitespace is never
    verified: whatever text the selected record carries, the result is the
    mismatch error. *)
Theorem verify_padded_expected_never_matches
    (json_loads : string → Py.loads_result) (h : Host)
    (l : list Py.value) (rec : gmap string Py.value)
    (body expected : string) :
  inbound_messages json_loads h l →
  l !! 1%nat = Some (Py.PDict rec) → rec !! "body" = Some (Py.PStr body) →
  Py.strip expected ≠ expected →
  outcome (verify_twilio_message json_loads
             {| expected_message := Some expected |} h)
  = Py.Return
      {| is_done := false;
         extracted_content := None;
         error := Some
           "Received message does not match the expected message." |}.
Proof.
  intros Hin Hrec Hbody Hpad.
  rewrite (verify_selected json_loads h _ l _ Hin Hrec).
  rewrite judge_record, Hbody. cbn [default from_option id expected_message].
  unfold verdict.
  destruct expected as [|c e]; [done|]. cbn [Py.truthy Py.fmt].
  destruct (String.eqb_spec (Py.lower (Py.strip body))
              (Py.lower (String c e))) as [Heq|Hne]; [|reflexivity].
  exfalso. apply Hpad. apply strip_same_length.
  rewrite <- (lower_length (Py.strip (String c e))), <- strip_lower, <- Heq.
  by rewrite strip_lower, strip_idempotent, Heq, lower_length.
Qed.

Lemma verify_padded_expected_never_matches_witness :
  outcome (verify_twilio_message JsonText.loads
             {| expected_message := Some "yes " |}
             (provider 0 (two_messages "no" "yes ") ""))
  = Py.Return
      {| is_done := false;
         extracted_content := None;
         error := Some
           "Received message does not match the expected message." |}.
Proof.
  refine (verify_padded_expected_never_matches JsonText.loads
            (provider 0 (two_messages "no" "yes ") "")
            [Py.PDict {[ "body" := Py.PStr "no";
                         "from" := Py.PStr "whatsapp:+4900" ]};
             Py.PDict {[ "body" := Py.PStr "yes ";
                         "from" := Py.PStr "whatsapp:+4900" ]}]
            {[ "body" := Py.PStr "yes ";
               "from" := Py.PStr "whatsapp:+4900" ]}
            "yes " "yes " _ _ _ _).
  - eexists. split; [repeat split|]; vm_compute; reflexivity.
  - vm_compute. reflexivity.
  - vm_compute. reflexivity.
  - vm_compute. discriminate.
Defined.

(** X14. The letter case of the expected message has no effect: two
    non-empty expected messages with the same lowercase form give the same
    run on every host, and so does an expected message and its lowercase
    form. *)
Theorem verify_expected_case_insensitive
    (json_loads : string → Py.loads_result) (h : Host)
    (expected expected' : string) :
  expected ≠ "" → expected' ≠ "" →
  Py.lower expected' = Py.lower expected →
  verify_twilio_message json_loads {| expected_message := Some expected' |} h
  = verify_twilio_message json_loads {| expected_message := Some expected |} h
  ∧ verify_twilio_message json_loads
      {| expected_message := Some (Py.lower expected) |} h
    = verify_twilio_message json_loads
        {| expected_message := Some expected |} h.
Proof.
  intros Hne Hne' Heq.
  assert (∀ e e', e ≠ "" → e' ≠ "" → Py.lower e' = Py.lower e →
            verify_twilio_message json_loads {| expected_message := Some e' |} h
            = verify_twilio_message json_loads {| expected_message := Some e |} h)
    as Hgen.
  { intros e e' He He' Hl.
    destruct e as [|c r]; [done|]. destruct e' as [|c' r']; [done|].
    unfold verify_twilio_message.
    cbn [expected_message Py.truthy Py.lower_of]. by rewrite Hl. }
  split; [by apply Hgen|].
  apply Hgen; [done| |apply lower_idempotent].
  destruct expected; [done|discriminate].
Qed.

Lemma verify_expected_case_insensitive_witness :
  verify_twilio_message JsonText.loads
    {| expected_message := Some "CONFIRMED" |}
    (provider 0 (two_messages "hi" " Confirmed ") "")
  = verify_twilio_message JsonText.loads
      {| expected_message := Some "Confirmed" |}
      (provider 0 (two_messages "hi" " Confirmed ") "").
Proof.
  refine (proj1 (verify_expected_case_insensitive JsonText.loads
                   (provider 0 (two_messages "hi" " Confirmed ") "")
                   "Confirmed" "CONFIRMED" _ _ _)).
  - discriminate.
  - discriminate.
  - vm_compute. reflexivity.
Defined.

(** ** Further properties of the three actions together *)

Lemma verdict_not_done expected received :
  is_done (verdict expected received) = false.
Proof.
  unfold verdict.
  destruct (Py.truthy expected); destruct (String.eqb _ _); reflexivity.
Qed.

(** X15. Only the "Done" action sets the is-done flag: every result the
    Messenger returns has it unset, every result the verifier returns has
    it unset, and every result "Done" returns has it set. *)
Theorem only_done_sets_is_done
    (json_loads : string → Py.loads_result)
    (sent : SendTwilioMessageAction) (checked : VerifyTwilioMessageAction)
    (finished : DoneAction) (h : Host) :
  (∀ r, outcome (send_twilio_message sent h) = Py.Return r →
        is_done r = false)
  ∧ (∀ r, outcome (verify_twilio_message json_loads checked h) = Py.Return r →
          is_done r = false)
  ∧ (∀ r, outcome (done finished h) = Py.Return r → is_done r = true).
Proof.
  split; [|split].
  - intros r. rewrite send_unfold. cbv zeta.
    destruct (Py.all _);
      [destruct (Py.has_nul _); [discriminate|];
       destruct (returncode _ =? 0)|];
      by intros [= <-].
  - intros r.
    destruct (Py.all [environ h !! "TWILIO_ACCOUNT_SID";
                      environ h !! "TWILIO_AUTH_TOKEN"]) eqn:E.
    + destruct (Z.eqb_spec (returncode (list_response h)) 0) as [Hrc|Hrc].
      * destruct (json_loads (stdout (list_response h))) as [v| |e] eqn:Hj.
        -- rewrite (verify_decoded _ _ _ v E Hrc Hj).
           destruct (Py.get v _ _) as [ms|]; [|discriminate].
           destruct (Py.len ms) as [n|]; [|discriminate].
           destruct (2 <=? n); [|by intros [= <-]].
           destruct (Py.getitem ms 1) as [rec|]; [|discriminate].
           unfold judge.
           destruct (Py.get rec _ _) as [b|]; [|discriminate].
           destruct (Py.strip_of b) as [s|]; [|discriminate].
           intros [= <-]. apply verdict_not_done.
        -- rewrite (verify_undecodable _ _ _ E Hrc Hj). by intros [= <-].
        -- rewrite (verify_decoder_raises _ _ _ e E Hrc Hj). discriminate.
      * rewrite (verify_transport_error _ _ _ E Hrc). by intros [= <-].
    + rewrite (verify_not_ready _ _ _ E). by intros [= <-].
  - intros r. unfold done. run_task.
    destruct (send_twilio_message _ h) as [[r'|e] t]; cbn [fst snd app];
      [by intros [= <-]|discriminate].
Qed.

Lemma only_done_sets_is_done_witness :
  is_done (result_content "Message sent successfully") = false
  ∧ is_done (result_content
               "Task completed successfully. User replied 'Yes'.") = false
  ∧ is_done (result_done ("Task completed: " +:+ "Order placed")) = true.
Proof.
  pose proof (only_done_sets_is_done JsonText.loads
                {| message := "Order placed" |}
                {| expected_message := None |}
                {| text := "Order placed" |}
                (provider 0 (two_messages "no" " Yes") "")) as (Ws & Wv & Wd).
  split; [|split].
  - apply Ws. vm_compute. reflexivity.
  - apply Wv. vm_compute. reflexivity.
  - apply Wd. vm_compute. reflexivity.
Defined.

(** X16. When one of the Messenger's variables is unset or empty, the
    "Done" action launches no subprocess at all and still returns the
    completion result, with no trace of the configuration error. *)
Theorem done_without_credentials
    (params : DoneAction) (h : Host) (name : string) :
  name ∈ messenger_variables → Py.truthy (environ h !! name) = false →
  done params h
  = (Py.Return
       {| is_done := true;
          extracted_content := Some ("Task completed: " +:+ text params);
          error := None |},
     []).
Proof.
  intros Hin Hf. unfold done. run_task.
  by rewrite (send_falsy_variable _ h name Hin Hf).
Qed.

Lemma done_without_credentials_witness :
  done {| text := "Order placed" |}
    (with_environ (<[ "TWILIO_WHATSAPP_FROM" := "" ]> credentials)
       (provider 0 "" ""))
  = (Py.Return
       {| is_done := true;
          extracted_content := Some ("Task completed: " +:+ "Order placed");
          error := None |},
     []).
Proof.
  apply (done_without_credentials {| text := "Order placed" |}
           (with_environ (<[ "TWILIO_WHATSAPP_FROM" := "" ]> credentials)
              (provider 0 "" ""))
           "TWILIO_WHATSAPP_FROM").
  - vm_compute. repeat constructor.
  - vm_compute. reflexivity.
Defined.
